(** * BAMalyzer: the report parsers and the tabs of [app.py]

    A shallow embedding of the Streamlit script [src/app.py]: the two
    text parsers applied to the output of [samtools flagstat] and
    [samtools idxstats], the data-frame steps of the Chromosomes tab,
    the category mapper of the pie sub-tab, and the order in which the
    script runs the external tool and renders its widgets.

    Conventions of the model.
    - A Python [str] is a [list ascii]; a character is read as the code
      point of the same number (U+0000 to U+00FF).  Text outside that
      range is not covered.  Literals of the script that are only shown,
      never inspected (titles, category labels), are kept as [string]s
      holding the bytes of the source file.
    - Python integers are [Z].
    - A raised exception is the [Raise] result of the [result] monad; a
      loop that appends to a list is a left fold threading that list.
    - pandas frames are modelled with the dtype pandas infers for a
      column of integers: int64 or uint64 when all its values fit,
      object (Python integers) otherwise; the operations of the script
      behave differently on the two kinds. *)

From Stdlib Require Import List Ascii String ZArith Bool Lia Arith.
From Stdlib Require Import Permutation Sorted.
Import ListNotations.

Local Open Scope Z_scope.
Local Open Scope list_scope.

(** ** Exceptions and the error monad *)

Definition pystr := list ascii.

(** A literal: [str "chr1"] is the Python string ['chr1']. *)
Definition str (s : string) : pystr := list_ascii_of_string s.

Inductive exn : Type :=
| ValueError (literal : pystr)
    (* invalid literal for int() with base 10: the offending text *)
| KeyError (key : string)
    (* a column absent from a frame *)
| TypeError (what : string)
| ZeroDivisionError
    (* Python's own division of two numbers by zero *)
| OverflowError
    (* Python's own division of two integers, result beyond the doubles *)
| CalledProcessError (cmd : list pystr) (returncode : Z)
                     (output : option pystr) (stderr : option pystr).

Inductive result (A : Type) : Type :=
| Ok (a : A)
| Raise (e : exn).

Arguments Ok {A} a.
Arguments Raise {A} e.

Definition bind {A B : Type} (m : result A) (k : A -> result B) : result B :=
  match m with
  | Ok a => k a
  | Raise e => Raise e
  end.

Notation "x <- m ;; k" := (bind m (fun x => k))
  (at level 61, m at next level, right associativity).

(** A [for] loop whose body may raise: the accumulator is threaded left
    to right and the first exception ends the loop. *)
Fixpoint for_each {A S : Type} (body : S -> A -> result S)
         (xs : list A) (s : S) : result S :=
  match xs with
  | [] => Ok s
  | x :: xs' => s' <- body s x ;; for_each body xs' s'
  end.

Definition raises {A : Type} (m : result A) : Prop :=
  exists e, m = Raise e.

(** ** Python string primitives *)

Module PyStr.

Definition code (c : ascii) : N := N_of_ascii c.

Definition TAB : ascii := "009"%char.
Definition LF : ascii := "010"%char.
Definition CR : ascii := "013"%char.

(** [str.isspace] on one character, code points below 256:
    U+0009..U+000D, U+001C..U+001F, U+0020, U+0085, U+00A0. *)
Definition isspace (c : ascii) : bool :=
  let n := code c in
  ((9 <=? n) && (n <=? 13) || (28 <=? n) && (n <=? 31)
   || (n =? 32) || (n =? 133) || (n =? 160))%N.

(** Line boundaries of [str.splitlines], code points below 256:
    \n, \r, \v, \f, \x1c, \x1d, \x1e, \x85 (and \r\n as one). *)
Definition is_linebreak (c : ascii) : bool :=
  let n := code c in
  ((10 <=? n) && (n <=? 13) || (28 <=? n) && (n <=? 30) || (n =? 133))%N.

(** [s.splitlines()]: [line] is the current line, reversed.  A boundary
    closes the current line, also an empty one; the text after the last
    boundary is a line only when it is not empty. *)
Fixpoint splitlines_from (line : pystr) (s : pystr) : list pystr :=
  match s with
  | [] => match line with [] => [] | _ => [rev line] end
  | c :: s' =>
      if is_linebreak c then
        if Ascii.eqb c CR then
          match s' with
          | c' :: s'' =>
              if Ascii.eqb c' LF then rev line :: splitlines_from [] s''
              else rev line :: splitlines_from [] s'
          | [] => rev line :: splitlines_from [] s'
          end
        else rev line :: splitlines_from [] s'
      else splitlines_from (c :: line) s'
  end.

Definition splitlines (s : pystr) : list pystr := splitlines_from [] s.

Fixpoint lstrip (s : pystr) : pystr :=
  match s with
  | c :: s' => if isspace c then lstrip s' else s
  | [] => []
  end.

Definition rstrip (s : pystr) : pystr := rev (lstrip (rev s)).

(** [s.strip()] *)
Definition strip (s : pystr) : pystr := rstrip (lstrip s).

(** Truth value of a string: [if line.strip():]. *)
Definition truthy (s : pystr) : bool :=
  match s with [] => false | _ => true end.

(** [s.split(sep)] for a separator of one character: every occurrence
    splits, so the result has one part more than there are separators. *)
Fixpoint split (sep : ascii) (s : pystr) : list pystr :=
  match s with
  | [] => [[]]
  | c :: s' =>
      if Ascii.eqb c sep then [] :: split sep s'
      else match split sep s' with
           | p :: ps => (c :: p) :: ps
           | [] => [[c]]
           end
  end.

(** [sep.join(parts)] *)
Fixpoint join (sep : pystr) (parts : list pystr) : pystr :=
  match parts with
  | [] => []
  | [p] => p
  | p :: ps => p ++ sep ++ join sep ps
  end.

(** [str.lower] on one character, code points below 256: A..Z and
    U+00C0..U+00DE except U+00D7 move up by 32. *)
Definition lower_char (c : ascii) : ascii :=
  let n := code c in
  if ((65 <=? n) && (n <=? 90)
      || (192 <=? n) && (n <=? 222) && negb (n =? 215))%N
  then ascii_of_N (n + 32) else c.

Definition lower (s : pystr) : pystr := map lower_char s.

Fixpoint startswith (p s : pystr) : bool :=
  match p, s with
  | [], _ => true
  | _ :: _, [] => false
  | a :: p', b :: s' => Ascii.eqb a b && startswith p' s'
  end.

(** [pat in s] *)
Fixpoint contains (pat s : pystr) : bool :=
  startswith pat s ||
  match s with
  | [] => false
  | _ :: s' => contains pat s'
  end.

(** [parts[i]]; the script only indexes below a checked length. *)
Definition item (parts : list pystr) (i : nat) : pystr := nth i parts [].

(** *** [int(s)] for a string, base 10

    Surrounding white space is skipped (for [int] that is \t \n \v \f
    \r, space and, below 256, U+0085 and U+00A0), then an optional sign,
    then decimal digits in which single underscores may separate
    digits.  Anything else raises [ValueError].  The interpreter's
    optional limit on the number of digits converted
    ([sys.set_int_max_str_digits]) is a setting of the runtime and is
    not part of the model. *)
Definition int_space (c : ascii) : bool :=
  let n := code c in
  ((9 <=? n) && (n <=? 13) || (n =? 32) || (n =? 133) || (n =? 160))%N.

Fixpoint int_lskip (s : pystr) : pystr :=
  match s with
  | c :: s' => if int_space c then int_lskip s' else s
  | [] => []
  end.

Definition is_digit (c : ascii) : bool :=
  let n := code c in ((48 <=? n) && (n <=? 57))%N.

Definition digit_val (c : ascii) : Z := Z.of_N (code c) - 48.

(** Digits with underscores, read left to right.  [prev_digit] tells
    whether the previous character was a digit: an underscore is only
    accepted after a digit and must be followed by one. *)
Fixpoint int_digits (prev_digit : bool) (acc : Z) (s : pystr) : option Z :=
  match s with
  | [] => if prev_digit then Some acc else None
  | c :: s' =>
      if is_digit c then int_digits true (10 * acc + digit_val c) s'
      else if Ascii.eqb c "_"%char then
        if prev_digit then int_digits false acc s' else None
      else None
  end.

Definition int_body (s : pystr) : option Z :=
  match s with
  | c :: s' =>
      if Ascii.eqb c "-"%char then option_map Z.opp (int_digits false 0 s')
      else if Ascii.eqb c "+"%char then int_digits false 0 s'
      else int_digits false 0 s
  | [] => None
  end.

Definition int (s : pystr) : result Z :=
  match int_body (rev (int_lskip (rev (int_lskip s)))) with
  | Some z => Ok z
  | None => Raise (ValueError s)
  end.

End PyStr.

(** ** Insertion-ordered dictionaries

    A Python [dict] keeps its keys in insertion order; assigning to a
    key already present replaces the value and leaves the key where it
    stands. *)

Module Dict.

Fixpoint key_eqb (a b : pystr) : bool :=
  match a, b with
  | [], [] => true
  | x :: a', y :: b' => Ascii.eqb x y && key_eqb a' b'
  | _, _ => false
  end.

Definition t (V : Type) : Type := list (pystr * V).

(** [d[k] = v] *)
Fixpoint set {V : Type} (d : t V) (k : pystr) (v : V) : t V :=
  match d with
  | [] => [(k, v)]
  | (k', v') :: d' =>
      if key_eqb k' k then (k', v) :: d' else (k', v') :: set d' k v
  end.

(** [d.items()] *)
Definition items {V : Type} (d : t V) : list (pystr * V) := d.

Definition keys {V : Type} (d : t V) : list pystr := map fst d.

End Dict.

(** ** The summary report ([samtools flagstat]) *)

Module Flagstat.

Import PyStr.

(** Statistics tab, lines 37-44: the metric lines shown in two columns.
    The count is kept as text here, [int] is not called. *)
Definition metrics_step (metrics : list pystr) (line : pystr) : list pystr :=
  if truthy (strip line) then
    let parts := split "+"%char line in
    if (List.length parts =? 2)%nat then
      let count := strip (item parts 0) in
      let desc := strip (item (split "("%char (item parts 1)) 0) in
      metrics ++ [str "**" ++ desc ++ str "**: `" ++ count ++ str "`"]
    else metrics
  else metrics.

Definition metrics (flagstat_text : pystr) : list pystr :=
  fold_left metrics_step (splitlines flagstat_text) [].

(** Pie sub-tab, lines 91-98: the mapping from description to count. *)
Definition flagstat_step (flagstat_data : Dict.t Z) (line : pystr)
  : result (Dict.t Z) :=
  if truthy (strip line) then
    let parts := split "+"%char line in
    if (List.length parts =? 2)%nat then
      count <- int (strip (item parts 0)) ;;
      let desc := lower (strip (item (split "("%char (item parts 1)) 0)) in
      Ok (Dict.set flagstat_data desc count)
    else Ok flagstat_data
  else Ok flagstat_data.

Definition flagstat_lines (lines : list pystr) : result (Dict.t Z) :=
  for_each flagstat_step lines [].

Definition flagstat_data (flagstat_text : pystr) : result (Dict.t Z) :=
  flagstat_lines (splitlines flagstat_text).

(** Lines 100-114: the label table, in the order of the literal. *)
Definition labels_map : list (pystr * string) :=
  [ (str "in total", "Total Reads"%string);
    (str "secondary", "Secondary Alignments"%string);
    (str "supplementary", "Supplementary Alignments"%string);
    (str "duplicates", "Duplicates"%string);
    (str "mapped", "Mapped Reads"%string);
    (str "paired in sequencing", "Paired Reads"%string);
    (str "read1", "Read 1"%string);
    (str "read2", "Read 2"%string);
    (str "properly paired", "Properly Paired"%string);
    (str "with itself and mate mapped", "Both Mates Mapped"%string);
    (str "singletons", "Singletons"%string);
    (str "with mate mapped to a different chr", "Mate Different Chr"%string);
    (str "with mate mapped to a different chr (mapq>=5)",
     "Mate Diff Chr (MQ≥5)"%string) ].

Record pie_row : Type := { Category : string; Count : Z }.

(** Lines 118-121: the inner loop, which stops at the first pattern
    found in the key. *)
Fixpoint first_label (labels : list (pystr * string)) (k : pystr)
  : option string :=
  match labels with
  | [] => None
  | (pat, label) :: rest =>
      if contains pat k then Some label else first_label rest k
  end.

Definition pie_step (pie_data : list pie_row) (kv : pystr * Z)
  : list pie_row :=
  match first_label labels_map (fst kv) with
  | Some label => pie_data ++ [ {| Category := label; Count := snd kv |} ]
  | None => pie_data
  end.

(** Lines 116-121 *)
Definition pie_data (flagstat_data : Dict.t Z) : list pie_row :=
  fold_left pie_step (Dict.items flagstat_data) [].

End Flagstat.

(** ** A small model of the pandas frames the script builds *)

Module Pandas.

(** The value of a float cell.  Rounding is not modelled: [Quot n d],
    with [d] not zero, stands for the double the division of [n] by [d]
    yields. *)
Inductive float64 : Type :=
| NaN
| Inf (negative : bool)
| Quot (num den : Z).

Definition isfinite (f : float64) : bool :=
  match f with Quot _ _ => true | _ => false end.

Inductive cell : Type :=
| VStr (s : pystr)
| VInt (z : Z)
| VFloat (f : float64).

Definition Series : Type := list cell.

(** One [dict] of the list a frame is built from. *)
Definition record : Type := list (string * cell).

(** Rows are stored in order; a row has one cell per column. *)
Record DataFrame : Type := { columns : list string; rows : list (list cell) }.

Definition has_column (cols : list string) (c : string) : bool :=
  existsb (String.eqb c) cols.

Definition add_keys (cols : list string) (r : record) : list string :=
  fold_left (fun cs k => if has_column cs k then cs else cs ++ [k])
            (map fst r) cols.

Fixpoint lookup (c : string) (r : record) : cell :=
  match r with
  | [] => VFloat NaN
  | (k, v) :: r' => if String.eqb k c then v else lookup c r'
  end.

(** [pd.DataFrame(records)]: the columns are the keys of the records in
    order of first appearance, so an empty list gives a frame without
    columns; a key missing from a record reads as NaN. *)
Definition DataFrame_of_records (rs : list record) : DataFrame :=
  let cols := fold_left add_keys rs [] in
  {| columns := cols;
     rows := map (fun r => map (fun c => lookup c r) cols) rs |}.

Fixpoint column_index (cols : list string) (c : string) : option nat :=
  match cols with
  | [] => None
  | k :: cols' =>
      if String.eqb k c then Some O
      else option_map S (column_index cols' c)
  end.

Definition cell_at (i : nat) (row : list cell) : cell := nth i row (VFloat NaN).

(** [df[c]]: [KeyError] when [c] is not a column. *)
Definition getitem (df : DataFrame) (c : string) : result Series :=
  match column_index (columns df) c with
  | Some i => Ok (map (cell_at i) (rows df))
  | None => Raise (KeyError c)
  end.

(** The dtype of a column.  For a column of integers pandas infers
    int64 when every value lies in the signed 64-bit range, uint64 when
    not all do but every value lies in the unsigned 64-bit range, and
    otherwise keeps the Python integers (dtype object).  The columns of
    this script hold only strings, only integers or only floats. *)
Inductive dtype : Type := Int64 | UInt64 | Float64 | Object.

Definition in_int64 (z : Z) : bool := (- 2 ^ 63 <=? z) && (z <? 2 ^ 63).

Definition in_uint64 (z : Z) : bool := (0 <=? z) && (z <? 2 ^ 64).

Definition int_dtype (zs : list Z) : dtype :=
  if forallb in_int64 zs then Int64
  else if forallb in_uint64 zs then UInt64
  else Object.

Fixpoint ints_of (s : Series) : option (list Z) :=
  match s with
  | [] => Some []
  | VInt z :: s' => option_map (cons z) (ints_of s')
  | _ :: _ => None
  end.

Definition is_float (c : cell) : bool :=
  match c with VFloat _ => true | _ => false end.

Definition dtype_of (s : Series) : dtype :=
  match s with
  | [] => Object
  | _ :: _ =>
      match ints_of s with
      | Some zs => int_dtype zs
      | None => if forallb is_float s then Float64 else Object
      end
  end.

(** The dtypes numpy computes with as machine integers. *)
Definition is_machine (d : dtype) : bool :=
  match d with Int64 | UInt64 => true | _ => false end.

(** Division of two machine integers as numpy does it: both become
    doubles and the division follows IEEE 754, so a zero divisor gives
    a NaN or an infinity and raises nothing. *)
Definition int64_truediv (a b : Z) : float64 :=
  if b =? 0 then (if a =? 0 then NaN else Inf (a <? 0)) else Quot a b.

(** The script divides two integer columns only.  For operands that are
    not both integers the model answers [TypeError], which is what
    pandas does for strings; float operands do not occur and nothing
    below relies on that case. *)
Definition cell_truediv (a b : cell) : result cell :=
  match a, b with
  | VInt x, VInt y => Ok (VFloat (int64_truediv x y))
  | _, _ => Raise (TypeError "unsupported operand type(s) for /")
  end.

(** The least magnitude that no longer rounds to a finite double. *)
Definition float_overflow_bound : Z := 2 ^ 1024 - 2 ^ 970.

(** Python's [a / b] on two of its integers: [ZeroDivisionError] for a
    zero divisor, [OverflowError] when the rounded quotient is beyond
    the doubles. *)
Definition python_truediv (a b : Z) : result float64 :=
  if b =? 0 then Raise ZeroDivisionError
  else if float_overflow_bound * Z.abs b <=? Z.abs a then Raise OverflowError
  else Ok (Quot a b).

Definition python_cell_truediv (a b : cell) : result cell :=
  match a, b with
  | VInt x, VInt y => f <- python_truediv x y ;; Ok (VFloat f)
  | _, _ => Raise (TypeError "unsupported operand type(s) for /")
  end.

(** An operation applied to two series over the same index, element by
    element; the first element that raises ends it. *)
Fixpoint elementwise (op : cell -> cell -> result cell) (a b : Series)
  : result Series :=
  match a, b with
  | x :: a', y :: b' =>
      q <- op x y ;; qs <- elementwise op a' b' ;; Ok (q :: qs)
  | _, _ => Ok []
  end.

(** [a / b] on two series: on two columns of machine integers the
    division of numpy; as soon as one of them is of dtype object, the
    division of Python on each pair of elements. *)
Definition truediv (a b : Series) : result Series :=
  if is_machine (dtype_of a) && is_machine (dtype_of b)
  then elementwise cell_truediv a b
  else elementwise python_cell_truediv a b.

Fixpoint replace_at (i : nat) (v : cell) (row : list cell) : list cell :=
  match i, row with
  | O, _ :: row' => v :: row'
  | S i', x :: row' => x :: replace_at i' v row'
  | _, [] => []
  end.

Fixpoint map2 {A B C : Type} (f : A -> B -> C) (xs : list A) (ys : list B)
  : list C :=
  match xs, ys with
  | x :: xs', y :: ys' => f x y :: map2 f xs' ys'
  | _, _ => []
  end.

(** [df[c] = s] for a series over the index of [df]: a new column is
    appended, an existing one is replaced. *)
Definition setitem (df : DataFrame) (c : string) (s : Series) : DataFrame :=
  match column_index (columns df) c with
  | Some i =>
      {| columns := columns df;
         rows := map2 (fun row v => replace_at i v row) (rows df) s |}
  | None =>
      {| columns := columns df ++ [c];
         rows := map2 (fun row v => row ++ [v]) (rows df) s |}
  end.

(** Sorting by an integer key, largest first.  The insertion keeps rows
    of equal key in their original order. *)
Fixpoint insert_desc {A : Type} (x : Z * A) (l : list (Z * A))
  : list (Z * A) :=
  match l with
  | [] => [x]
  | y :: l' => if fst y <=? fst x then x :: l else y :: insert_desc x l'
  end.

Fixpoint sort_desc {A : Type} (l : list (Z * A)) : list (Z * A) :=
  match l with
  | [] => []
  | x :: l' => insert_desc x (sort_desc l')
  end.

(** The integer keys of a column: [KeyError] when the column is absent,
    [TypeError] when it does not hold integers. *)
Fixpoint int_keys (s : Series) : result (list Z) :=
  match s with
  | [] => Ok []
  | VInt z :: s' => zs <- int_keys s' ;; Ok (z :: zs)
  | _ :: _ => Raise (TypeError "column is not of an integer dtype")
  end.

(** [df.sort_values(c, ascending=False)] for an integer column.  The
    default sort of pandas is not stable: the order it gives to rows of
    equal key is not fixed and differs from the one of [nlargest].  The
    model returns one of the possible orders, and nothing is stated
    below about the order of rows of equal key in this frame. *)
Definition sort_values_desc (df : DataFrame) (c : string) : result DataFrame :=
  s <- getitem df c ;;
  keys <- int_keys s ;;
  Ok {| columns := columns df;
        rows := map snd (sort_desc (combine keys (rows df))) |}.

(** [df.nlargest(n, c)] with the default [keep='first'], for an integer
    column: the first [n] rows of the frame ordered by [c], largest
    first, rows of equal key in their original order; a new frame, [df]
    is left as it is.  A column of dtype object is refused with
    [TypeError]. *)
Definition nlargest (df : DataFrame) (n : nat) (c : string) : result DataFrame :=
  s <- getitem df c ;;
  match dtype_of s with
  | Object =>
      Raise (TypeError ("Column '" ++ c ++
                        "' has dtype object, cannot use method 'nlargest' with this dtype"))
  | _ =>
      keys <- int_keys s ;;
      Ok {| columns := columns df;
            rows := firstn n (map snd (sort_desc (combine keys (rows df)))) |}
  end.

Definition nrows (df : DataFrame) : nat := List.length (rows df).

End Pandas.

(** ** The per-reference report ([samtools idxstats]) *)

Module Idxstats.

Import PyStr Pandas.

(** Lines 60-69: one turn of the loop.  The four values of the dict
    literal are evaluated in the order written. *)
Definition chr_step (chr_data : list record) (line : pystr)
  : result (list record) :=
  if truthy (strip line) then
    let parts := split TAB line in
    if (3 <=? List.length parts)%nat then
      let chromosome := item parts 0 in
      length <- int (item parts 1) ;;
      mapped <- int (item parts 2) ;;
      unmapped <- (if (3 <? List.length parts)%nat
                   then int (item parts 3) else Ok 0) ;;
      Ok (chr_data ++ [ [ ("Chromosome"%string, VStr chromosome);
                          ("Length"%string, VInt length);
                          ("Mapped"%string, VInt mapped);
                          ("Unmapped"%string, VInt unmapped) ] ])
    else Ok chr_data
  else Ok chr_data.

Definition chr_lines (lines : list pystr) : result (list record) :=
  for_each chr_step lines [].

Definition chr_data (chromosome_stats : pystr) : result (list record) :=
  chr_lines (splitlines chromosome_stats).

(** Lines 70-71: the frame and its derived column. *)
Definition with_coverage (df : DataFrame) : result DataFrame :=
  mapped <- getitem df "Mapped" ;;
  length <- getitem df "Length" ;;
  coverage <- truediv mapped length ;;
  Ok (setitem df "Coverage" coverage).

(** The three frames the Chromosomes tab works with: [df] after line 71,
    [top_df] of line 72 and the sorted frame of line 81. *)
Record chromosome_views : Type :=
  { df : DataFrame; top_df : DataFrame; all_sorted : DataFrame }.

Definition chromosome_frames (chromosome_stats : pystr)
  : result chromosome_views :=
  chr_data <- chr_data chromosome_stats ;;
  df <- with_coverage (DataFrame_of_records chr_data) ;;
  top_df <- nlargest df 5 "Mapped" ;;
  all_sorted <- sort_values_desc df "Mapped" ;;
  Ok {| df := df; top_df := top_df; all_sorted := all_sorted |}.

End Idxstats.

(** ** The script, top to bottom

    What a run of the script does is recorded as a log of events: the
    invocations of the external tool and the widgets rendered, in
    order.  A run ends normally or with the exception that stopped it;
    the events logged before the exception stay in the log. *)

Module App.

Import PyStr Pandas.

Inductive event : Type :=
| Run (cmd : list pystr)            (* subprocess.run started [cmd] *)
| PageConfig (page_title layout : string)
| Title (s : string)
| FileUploader (label : string)
| Text (s : string)                 (* st.markdown of a literal *)
| Info (s : string)
| Warning (s : string)
| Subheader (s : string)
| Tabs (names : list string)
| Columns (n : nat)
| Markdown (body : pystr)
| Expander (label : string)
| Code (body : pystr)
| Dataframe (df : DataFrame)
| BarChart (df : DataFrame) (x y color title : string)
| PieChart (data : list Flagstat.pie_row) (title : string)
| Illustrative (title : string).    (* a chart of numpy.random samples *)

Definition M (A : Type) : Type := list event -> list event * result A.

Definition ret {A : Type} (a : A) : M A := fun log => (log, Ok a).

Definition bindM {A B : Type} (m : M A) (k : A -> M B) : M B :=
  fun log =>
    match m log with
    | (log', Ok a) => k a log'
    | (log', Raise e) => (log', Raise e)
    end.

Definition emit (e : event) : M unit := fun log => (log ++ [e], Ok tt).

Definition lift {A : Type} (r : result A) : M A := fun log => (log, r).

Definition throw {A : Type} (e : exn) : M A := fun log => (log, Raise e).

Notation "x <~ m ;; k" := (bindM m (fun x => k))
  (at level 61, m at next level, right associativity).
Notation "m ;;; k" := (bindM m (fun _ => k))
  (at level 61, right associativity).

(** What one invocation of the external tool comes back with. *)
Record outcome : Type :=
  { exit_status : Z; out_text : pystr; err_text : pystr }.

Record CompletedProcess : Type :=
  { returncode : Z; stdout : option pystr; stderr : option pystr }.

Section Script.

(** The external tool: its outcome for each command line.  The tool is
    taken to be installed, so that starting it does not fail. *)
Variable tool : list pystr -> outcome.

(** [subprocess.run(cmd, check=..., capture_output=..., text=True)]:
    the streams are kept only under [capture_output]; under [check] a
    non-zero exit status raises [CalledProcessError] with the command,
    the status and the streams kept. *)
Definition subprocess_run (cmd : list pystr) (check capture_output : bool)
  : M CompletedProcess :=
  emit (Run cmd) ;;;
  let p := tool cmd in
  let kept (s : pystr) := if capture_output then Some s else None in
  if check && negb (exit_status p =? 0) then
    throw (CalledProcessError cmd (exit_status p)
                              (kept (out_text p)) (kept (err_text p)))
  else
    ret {| returncode := exit_status p;
           stdout := kept (out_text p);
           stderr := kept (err_text p) |}.

Definition text_of (s : option pystr) : pystr :=
  match s with Some t => t | None => [] end.

(** Lines 35-54 *)
Definition statistics_tab (flagstat_text : pystr) : M unit :=
  emit (Subheader "🧬 Comprehensive Alignment Statistics") ;;;
  let metrics := Flagstat.metrics flagstat_text in
  emit (Columns 2) ;;;
  let half := Nat.div (List.length metrics) 2 in
  emit (Markdown (join [LF; LF] (firstn half metrics))) ;;;
  emit (Markdown (join [LF; LF] (skipn half metrics))) ;;;
  emit (Expander "View Raw Flagstats") ;;;
  emit (Code flagstat_text).

(** Lines 57-81 *)
Definition chromosomes_tab (chromosome_stats : pystr) : M unit :=
  emit (Subheader "🧬 Chromosome Distribution") ;;;
  chr_data <~ lift (Idxstats.chr_data chromosome_stats) ;;
  df <~ lift (Idxstats.with_coverage (DataFrame_of_records chr_data)) ;;
  top_df <~ lift (nlargest df 5 "Mapped") ;;
  emit (Subheader "Top 5 Chromosomes") ;;;
  emit (Dataframe top_df) ;;;
  emit (BarChart top_df "Chromosome" "Mapped" "Chromosome"
                 "Mapped Reads by Chromosome") ;;;
  emit (Subheader "All Chromosomes") ;;;
  all_sorted <~ lift (sort_values_desc df "Mapped") ;;
  emit (Dataframe all_sorted).

(** Lines 90-131 *)
Definition pie_subtab (flagstat_text : pystr) : M unit :=
  flagstat_data <~ lift (Flagstat.flagstat_data flagstat_text) ;;
  let pie_data := Flagstat.pie_data flagstat_data in
  match pie_data with
  | _ :: _ => emit (PieChart pie_data "📊 Read Composition from Flagstats")
  | [] => emit (Warning "Could not generate pie chart.")
  end.

(** Lines 84-171 *)
Definition visualizations_tab (flagstat_text : pystr) : M unit :=
  emit (Subheader "📈 Visualizations") ;;;
  emit (Tabs ["Flagstats Pie"; "GC Content"; "Coverage"; "Read Length";
              "Read Quality"]%string) ;;;
  pie_subtab flagstat_text ;;;
  emit (Illustrative "📈 GC Content Distribution") ;;;
  emit (Info "Distribution of GC content") ;;;
  emit (Illustrative "📈 Simulated Coverage Across Genome") ;;;
  emit (Info "Simulated coverage depth across genome") ;;;
  emit (Illustrative "📏 Read Length Distribution") ;;;
  emit (Info "Distribution of read lengths") ;;;
  emit (Illustrative "🔬 Simulated Read Quality") ;;;
  emit (Info "Simulated base-wise quality score").

Definition index_cmd (bam_path : pystr) : list pystr :=
  [str "samtools"; str "index"; bam_path].
Definition flagstat_cmd (bam_path : pystr) : list pystr :=
  [str "samtools"; str "flagstat"; bam_path].
Definition idxstats_cmd (bam_path : pystr) : list pystr :=
  [str "samtools"; str "idxstats"; bam_path].

(** Lines 15-171, for an upload stored at [bam_path]. *)
Definition analyse (bam_path : pystr) : M unit :=
  emit (Info "🔧 Indexing BAM file...") ;;;
  subprocess_run (index_cmd bam_path) true false ;;;
  flagstat_result <~ subprocess_run (flagstat_cmd bam_path) false true ;;
  let flagstat_text := text_of (stdout flagstat_result) in
  idxstats_result <~ subprocess_run (idxstats_cmd bam_path) false true ;;
  let chromosome_stats := text_of (stdout idxstats_result) in
  emit (Tabs ["Statistics"; "Chromosomes"; "Visualizations"]%string) ;;;
  statistics_tab flagstat_text ;;;
  chromosomes_tab chromosome_stats ;;;
  visualizations_tab flagstat_text.

(** The whole script; [uploaded_file] is the path the upload is written
    to (lines 16-19, the writing itself is not modelled), or [None]
    when nothing was uploaded. *)
Definition app (uploaded_file : option pystr) : M unit :=
  emit (PageConfig "BAM File Quality Control" "wide") ;;;
  emit (Title "🧬 BAMalyzer") ;;;
  emit (Text "Upload a BAM file to visualize basic quality metrics.") ;;;
  emit (FileUploader "📤 Upload BAM file") ;;;
  match uploaded_file with
  | Some bam_path => analyse bam_path
  | None => emit (Info "👆 Please upload a BAM file to begin analysis.")
  end.

Definition run (uploaded_file : option pystr) : list event * result unit :=
  app uploaded_file [].

End Script.

End App.

(** ** Vocabulary of the statements *)

Module Spec.

Import PyStr Pandas.

(** A non-empty run of decimal digits, and the number it writes. *)
Definition digits (s : pystr) : Prop :=
  s <> [] /\ Forall (fun c => is_digit c = true) s.

Definition decimal_value (s : pystr) : Z :=
  fold_left (fun acc c => 10 * acc + digit_val c) s 0.

(** Text that stays within one line of a report. *)
Definition one_line (s : pystr) : Prop :=
  Forall (fun c => is_linebreak c = false) s.

Definition free_of (c : ascii) (s : pystr) : Prop := ~ In c s.

Definition blank (s : pystr) : Prop := Forall (fun c => isspace c = true) s.

(** The dict one per-reference line contributes (lines 64-69). *)
Definition chr_record (chromosome : pystr) (length mapped unmapped : Z)
  : record :=
  [ ("Chromosome"%string, VStr chromosome);
    ("Length"%string, VInt length);
    ("Mapped"%string, VInt mapped);
    ("Unmapped"%string, VInt unmapped) ].

(** A parsed row of the per-reference report, its dict, its cells in a
    frame and the value of its derived column. *)
Record reference : Type :=
  { ref_name : pystr; ref_length : Z; ref_mapped : Z; ref_unmapped : Z }.

Definition record_of (r : reference) : record :=
  chr_record (ref_name r) (ref_length r) (ref_mapped r) (ref_unmapped r).

Definition coverage_of (r : reference) : float64 :=
  int64_truediv (ref_mapped r) (ref_length r).

Definition cells_of (r : reference) : list cell :=
  [ VStr (ref_name r); VInt (ref_length r); VInt (ref_mapped r);
    VInt (ref_unmapped r) ].

Definition frame_row (r : reference) : list cell :=
  cells_of r ++ [ VFloat (coverage_of r) ].

(** The frame of line 71 for a non-empty list of parsed rows. *)
Definition reference_frame (refs : list reference) : DataFrame :=
  {| columns := [ "Chromosome"; "Length"; "Mapped"; "Unmapped"; "Coverage" ]%string;
     rows := map frame_row refs |}.

(** The order a descending sort by key establishes. *)
Definition key_ge {A : Type} (x y : Z * A) : Prop := fst x >= fst y.

Definition by_mapped_desc (refs : list reference) : Prop :=
  StronglySorted (fun a b => ref_mapped a >= ref_mapped b) refs.

(** The integer column [c] of a frame. *)
Definition int_column (df : DataFrame) (c : string) : result (list Z) :=
  s <- getitem df c ;; int_keys s.

Definition descending (ks : list Z) : Prop := StronglySorted Z.ge ks.

(** An exception that carries the text [diag] of the external tool. *)
Definition carries (e : exn) (diag : pystr) : Prop :=
  match e with
  | CalledProcessError _ _ output stderr =>
      output = Some diag \/ stderr = Some diag
  | ValueError lit => lit = diag
  | _ => False
  end.

(** The variables of lines 116-121 and one execution of those lines:
    [pie_data] is reset, then filled from [flagstat_data]. *)
Record pie_vars : Type :=
  { var_flagstat_data : Dict.t Z; var_pie_data : list Flagstat.pie_row }.

Definition category_mapper (s : pie_vars) : pie_vars :=
  let s0 := {| var_flagstat_data := var_flagstat_data s;
               var_pie_data := [] |} in
  fold_left
    (fun st kv => {| var_flagstat_data := var_flagstat_data st;
                     var_pie_data := Flagstat.pie_step (var_pie_data st) kv |})
    (Dict.items (var_flagstat_data s0)) s0.

(** A per-reference report used as an example: six references, two of
    them with equal mapped counts, one of length zero and a closing
    line for the reads without a reference. *)
Definition tsv (fields : list string) : pystr := join [TAB] (map str fields).

Definition example_idxstats : pystr :=
  join [LF]
    [ tsv ["chr1"; "248956422"; "500000"; "1200"];
      tsv ["chr2"; "242193529"; "730000"; "0"];
      tsv ["chr3"; "198295559"; "500000"; "7"];
      tsv ["chrM"; "16569"; "300"];
      tsv ["chrUn"; "0"; "40"; "0"];
      tsv ["chrX"; "156040895"; "910000"; "15"];
      tsv ["*"; "0"; "0"; "3100"] ]%string.

(** Three behaviours of the external tool used as examples.  With
    [unsorted_input_tool] the index cannot be built and the tool says
    why on its error stream; with [empty_summary_tool] the summary report
    comes back empty and the per-reference report is the example
    above; with [failing_idxstats_tool] the index and the summary succeed and
    the per-reference report comes back empty. *)
Definition is_subcommand (name : pystr) (cmd : list pystr) : bool :=
  Dict.key_eqb (item cmd 1) name.

Definition unsorted_input_tool (cmd : list pystr) : App.outcome :=
  if is_subcommand (str "index") cmd then
    {| App.exit_status := 1; App.out_text := [];
       App.err_text := str "[E::hts_idx_push] Unsorted positions" |}
  else
    {| App.exit_status := 0; App.out_text := []; App.err_text := [] |}.

Definition empty_summary_tool (cmd : list pystr) : App.outcome :=
  if is_subcommand (str "idxstats") cmd then
    {| App.exit_status := 0; App.out_text := example_idxstats;
       App.err_text := [] |}
  else
    {| App.exit_status := 0; App.out_text := []; App.err_text := [] |}.

Definition failing_idxstats_tool (cmd : list pystr) : App.outcome :=
  if is_subcommand (str "flagstat") cmd then
    {| App.exit_status := 0; App.out_text := str "12 + 0 mapped (100.00% : N/A)";
       App.err_text := [] |}
  else if is_subcommand (str "idxstats") cmd then
    {| App.exit_status := 1; App.out_text := [];
       App.err_text := str "samtools idxstats: fail to load index" |}
  else
    {| App.exit_status := 0; App.out_text := []; App.err_text := [] |}.

End Spec.

(** ** Further vocabulary: the log of a run and the label table *)

Module Observe.

Import PyStr.

(** The command lines the external tool was started with, in order. *)
Definition invocations (log : list App.event) : list (list pystr) :=
  flat_map (fun e => match e with App.Run cmd => [cmd] | _ => [] end) log.

(** The description a summary line is filed under, from the text right
    of its '+' (line 97). *)
Definition description_key (right : pystr) : pystr :=
  lower (strip (item (split "("%char right) 0)).

(** The patterns of the label table, in order. *)
Definition patterns : list pystr := map fst Flagstat.labels_map.

(** The categories of the label table that stand before or apart from
    the entries shadowed by "mapped". *)
Definition assignable_categories : list string :=
  [ "Total Reads"; "Secondary Alignments"; "Supplementary Alignments";
    "Duplicates"; "Mapped Reads"; "Paired Reads"; "Read 1"; "Read 2";
    "Properly Paired"; "Singletons" ]%string.

(** The five columns of the frame of line 71. *)
Definition frame_columns : list string :=
  [ "Chromosome"; "Length"; "Mapped"; "Unmapped"; "Coverage" ]%string.

(** Two behaviours of the external tool that differ only in what the
    two report commands return besides their standard output: the
    second lets them end with status 1 and a message on the error
    stream. *)
Definition quiet_reports_tool (cmd : list pystr) : App.outcome :=
  if Spec.is_subcommand (str "flagstat") cmd then
    {| App.exit_status := 0;
       App.out_text := str "12 + 0 mapped (100.00% : N/A)";
       App.err_text := [] |}
  else if Spec.is_subcommand (str "idxstats") cmd then
    {| App.exit_status := 0; App.out_text := Spec.example_idxstats;
       App.err_text := [] |}
  else
    {| App.exit_status := 0; App.out_text := []; App.err_text := [] |}.

Definition noisy_reports_tool (cmd : list pystr) : App.outcome :=
  if Spec.is_subcommand (str "flagstat") cmd then
    {| App.exit_status := 1;
       App.out_text := str "12 + 0 mapped (100.00% : N/A)";
       App.err_text := str "[W::bam_hdr_read] EOF marker is absent" |}
  else if Spec.is_subcommand (str "idxstats") cmd then
    {| App.exit_status := 1; App.out_text := Spec.example_idxstats;
       App.err_text := str "samtools idxstats: truncated file" |}
  else
    {| App.exit_status := 0; App.out_text := []; App.err_text := [] |}.

(** Columns of integers that pandas stores as machine integers. *)
Definition machine_ints (zs : list Z) : bool :=
  Pandas.is_machine (Pandas.int_dtype zs).

(** Parsed rows whose lengths and mapped counts are stored as machine
    integers. *)
Definition machine_columns (refs : list Spec.reference) : Prop :=
  machine_ints (map Spec.ref_length refs) = true /\
  machine_ints (map Spec.ref_mapped refs) = true.

(** A per-reference report of five rows, one of them with a count of
    more than 64 bits, and a line with such a count and length zero. *)
Definition wide_count_idxstats : pystr :=
  join [LF]
    [ Spec.tsv ["chr1"; "248956422"; "500000"; "1200"];
      Spec.tsv ["chr2"; "242193529"; "730000"; "0"];
      Spec.tsv ["chr3"; "198295559"; "500000"; "7"];
      Spec.tsv ["big"; "10"; "99999999999999999999"; "0"];
      Spec.tsv ["chrX"; "156040895"; "910000"; "15"] ]%string.

(** The rows of [Spec.example_idxstats]. *)
Definition example_references : list Spec.reference :=
  [ {| Spec.ref_name := str "chr1"; Spec.ref_length := 248956422;
       Spec.ref_mapped := 500000; Spec.ref_unmapped := 1200 |};
    {| Spec.ref_name := str "chr2"; Spec.ref_length := 242193529;
       Spec.ref_mapped := 730000; Spec.ref_unmapped := 0 |};
    {| Spec.ref_name := str "chr3"; Spec.ref_length := 198295559;
       Spec.ref_mapped := 500000; Spec.ref_unmapped := 7 |};
    {| Spec.ref_name := str "chrM"; Spec.ref_length := 16569;
       Spec.ref_mapped := 300; Spec.ref_unmapped := 0 |};
    {| Spec.ref_name := str "chrUn"; Spec.ref_length := 0;
       Spec.ref_mapped := 40; Spec.ref_unmapped := 0 |};
    {| Spec.ref_name := str "chrX"; Spec.ref_length := 156040895;
       Spec.ref_mapped := 910000; Spec.ref_unmapped := 15 |};
    {| Spec.ref_name := str "*"; Spec.ref_length := 0;
       Spec.ref_mapped := 0; Spec.ref_unmapped := 3100 |} ].

Definition wide_count_zero_length : pystr :=
  Spec.tsv ["big"; "0"; "99999999999999999999"; "0"]%string.

End Observe.

(** * Properties *)

(** ** The error monad and loops *)

Lemma for_each_app {A S : Type} (body : S -> A -> result S) (xs ys : list A) (s : S) :
  for_each body (xs ++ ys) s = (s' <- for_each body xs s ;; for_each body ys s').
Proof.
  revert s; induction xs as [|x xs IH]; intros s; simpl.
  - reflexivity.
  - destruct (body s x) as [s1|e]; simpl; [apply IH | reflexivity].
Qed.

(** A turn that raises whatever the accumulator makes the loop raise,
    unless an earlier turn did so first. *)
Lemma for_each_raises_at {A S : Type} (P : exn -> Prop)
      (body : S -> A -> result S) (x : A) (xs : list A) :
  (forall s y e, body s y = Raise e -> P e) ->
  (forall s, raises (body s x)) ->
  In x xs ->
  forall s, exists e, for_each body xs s = Raise e /\ P e.
Proof.
  intros HP Hx; induction xs as [|y xs IH]; intros Hin s.
  - destruct Hin.
  - simpl. destruct (body s y) as [s1|e] eqn:Hy; simpl.
    + destruct Hin as [->|Hin].
      * destruct (Hx s) as [e He]; congruence.
      * apply IH; assumption.
    + exists e; split; [reflexivity | eapply HP; eassumption].
Qed.

(** ** Facts about the string primitives *)

Module PyStrFacts.

Import PyStr Spec.

Ltac each_ascii c :=
  destruct c as [[] [] [] [] [] [] [] []].

Lemma digit_not_space (c : ascii) :
  is_digit c = true ->
  isspace c = false /\ int_space c = false /\ is_linebreak c = false.
Proof. each_ascii c; intros H; try discriminate H; repeat split. Qed.

Lemma digit_not_mark (c : ascii) :
  is_digit c = true ->
  c <> "+"%char /\ c <> "("%char /\ c <> "-"%char /\ c <> "_"%char /\ c <> TAB.
Proof.
  each_ascii c; intros H; try discriminate H; repeat split; discriminate.
Qed.

Lemma lower_char_paren (c : ascii) : lower_char c = "("%char -> c = "("%char.
Proof. each_ascii c; intros H; try discriminate H; reflexivity. Qed.

Lemma eqb_false_of_neq (a b : ascii) : a <> b -> Ascii.eqb a b = false.
Proof. intros H; apply Ascii.eqb_neq; exact H. Qed.

(** *** splitlines *)

Lemma splitlines_from_one_line (s line : pystr) :
  one_line s ->
  splitlines_from line s =
  match rev line ++ s with [] => [] | l => [l] end.
Proof.
  intros Hs; revert line; induction Hs as [|c s Hc Hs IH]; intros line.
  - simpl. rewrite app_nil_r. destruct line as [|a line]; [reflexivity|].
    simpl. destruct (rev line ++ [a]) eqn:E; [|reflexivity].
    destruct (rev line); discriminate E.
  - simpl. rewrite Hc, IH. simpl. rewrite <- app_assoc. reflexivity.
Qed.

Lemma splitlines_one_line (s : pystr) :
  one_line s -> s <> [] -> splitlines s = [s].
Proof.
  intros Hs Hne. unfold splitlines. rewrite splitlines_from_one_line by assumption.
  simpl. destruct s; [contradiction | reflexivity].
Qed.

Lemma one_line_app (a b : pystr) : one_line a -> one_line b -> one_line (a ++ b).
Proof. intros Ha Hb; apply Forall_app; split; assumption. Qed.

Lemma digits_one_line (s : pystr) : digits s -> one_line s.
Proof.
  intros [_ H]. eapply Forall_impl; [|exact H].
  intros c Hc. apply digit_not_space in Hc. tauto.
Qed.

(** *** split *)

Lemma split_not_nil (sep : ascii) (s : pystr) : split sep s <> [].
Proof.
  destruct s as [|c s]; simpl; [discriminate|].
  destruct (Ascii.eqb c sep); [discriminate|].
  destruct (split sep s); discriminate.
Qed.

Lemma split_free (sep : ascii) (s : pystr) : free_of sep s -> split sep s = [s].
Proof.
  unfold free_of; induction s as [|c s IH]; intros H; simpl; [reflexivity|].
  rewrite eqb_false_of_neq by (intros ->; apply H; left; reflexivity).
  rewrite IH by (intros Hin; apply H; right; exact Hin). reflexivity.
Qed.

Lemma split_app (sep : ascii) (l r : pystr) :
  free_of sep l -> split sep (l ++ sep :: r) = l :: split sep r.
Proof.
  unfold free_of; induction l as [|c l IH]; intros H; simpl.
  - rewrite Ascii.eqb_refl. reflexivity.
  - rewrite eqb_false_of_neq by (intros ->; apply H; left; reflexivity).
    rewrite IH by (intros Hin; apply H; right; exact Hin). reflexivity.
Qed.

(** The first part of a split holds no separator. *)
Lemma split_head_free (sep : ascii) (s : pystr) :
  free_of sep (item (split sep s) 0).
Proof.
  unfold free_of, item; induction s as [|c s IH]; simpl; [tauto|].
  destruct (Ascii.eqb c sep) eqn:E; simpl; [tauto|].
  destruct (split sep s) as [|p ps] eqn:Es; simpl in *.
  - intros [->|[]]. rewrite Ascii.eqb_refl in E; discriminate.
  - intros [->|Hin]; [rewrite Ascii.eqb_refl in E; discriminate | tauto].
Qed.

Lemma free_of_app (c : ascii) (a b : pystr) :
  free_of c a -> free_of c b -> free_of c (a ++ b).
Proof. unfold free_of; intros Ha Hb Hin; apply in_app_or in Hin; tauto. Qed.

(** *** strip *)

Lemma lstrip_blank (ws s : pystr) : blank ws -> lstrip (ws ++ s) = lstrip s.
Proof.
  intros H; induction H as [|c ws Hc _ IH]; simpl; [reflexivity|].
  rewrite Hc; exact IH.
Qed.

Lemma lstrip_nil_iff (s : pystr) : lstrip s = [] <-> blank s.
Proof.
  unfold blank; induction s as [|c s IH]; simpl.
  - split; [constructor | reflexivity].
  - destruct (isspace c) eqn:E.
    + rewrite IH; split; intros H; [constructor; assumption | inversion H; assumption].
    + split; [discriminate|]. intros H; inversion H; congruence.
Qed.

Lemma lstrip_head (s : pystr) :
  match lstrip s with [] => True | c :: _ => isspace c = false end.
Proof.
  induction s as [|c s IH]; simpl; [exact I|].
  destruct (isspace c) eqn:E; [exact IH | exact E].
Qed.

Lemma lstrip_fixed (c : ascii) (s : pystr) :
  isspace c = false -> lstrip (c :: s) = c :: s.
Proof. intros H; simpl; rewrite H; reflexivity. Qed.

Lemma lstrip_app_keep (s t : pystr) :
  lstrip s <> [] -> lstrip (s ++ t) = lstrip s ++ t.
Proof.
  induction s as [|c s IH]; simpl; [congruence|].
  destruct (isspace c); [exact IH | reflexivity].
Qed.

Lemma blank_rev (s : pystr) : blank s -> blank (rev s).
Proof. unfold blank; intros H; apply Forall_rev; exact H. Qed.

Lemma rstrip_blank (s ws : pystr) : blank ws -> rstrip (s ++ ws) = rstrip s.
Proof.
  intros H; unfold rstrip. rewrite rev_app_distr, lstrip_blank; [reflexivity|].
  apply blank_rev; exact H.
Qed.

Lemma strip_pad (ws1 s ws2 : pystr) :
  blank ws1 -> blank ws2 -> strip (ws1 ++ s ++ ws2) = strip s.
Proof.
  intros H1 H2; unfold strip. rewrite lstrip_blank by assumption.
  destruct (lstrip s) as [|c t] eqn:E.
  - assert (Hb : blank (s ++ ws2)).
    { apply Forall_app; split; [apply lstrip_nil_iff; exact E | exact H2]. }
    apply lstrip_nil_iff in Hb. rewrite Hb. reflexivity.
  - rewrite lstrip_app_keep by congruence. rewrite E. apply rstrip_blank; exact H2.
Qed.

Lemma strip_nil_iff (s : pystr) : strip s = [] <-> blank s.
Proof.
  unfold strip, rstrip. rewrite <- lstrip_nil_iff. split.
  - intros H. apply (f_equal (@rev ascii)) in H. rewrite rev_involutive in H.
    simpl in H. apply lstrip_nil_iff in H.
    pose proof (lstrip_head s) as Hh.
    destruct (lstrip s) as [|c t]; [reflexivity|].
    apply blank_rev in H. unfold blank in H. rewrite rev_involutive in H.
    inversion H; congruence.
  - intros ->. reflexivity.
Qed.

Lemma truthy_strip (s : pystr) (c : ascii) :
  In c s -> isspace c = false -> truthy (strip s) = true.
Proof.
  intros Hin Hc. destruct (strip s) eqn:E; [|reflexivity].
  apply strip_nil_iff in E. unfold blank in E. rewrite Forall_forall in E.
  specialize (E c Hin). congruence.
Qed.

Lemma truthy_strip_blank (s : pystr) : blank s -> truthy (strip s) = false.
Proof. intros H. apply strip_nil_iff in H. rewrite H. reflexivity. Qed.

(** A text that neither starts nor ends with white space is its own strip. *)
Lemma strip_fixed (s : pystr) (a z : ascii) (mid : pystr) :
  s = a :: mid -> (exists pre, s = pre ++ [z]) ->
  isspace a = false -> isspace z = false -> strip s = s.
Proof.
  intros Ha [pre Hz] Hsa Hsz. unfold strip.
  rewrite Ha at 1. rewrite lstrip_fixed by assumption. rewrite <- Ha.
  unfold rstrip. rewrite Hz at 1. rewrite rev_app_distr. simpl.
  rewrite Hsz. simpl. rewrite rev_involutive. symmetry; exact Hz.
Qed.

Lemma digits_ends (s : pystr) :
  digits s ->
  (exists a mid, s = a :: mid /\ is_digit a = true) /\
  (exists pre z, s = pre ++ [z] /\ is_digit z = true).
Proof.
  intros [Hne H]. split.
  - destruct s as [|a mid]; [contradiction|]. inversion H; subst. eauto.
  - destruct (exists_last Hne) as [pre [z ->]]. apply Forall_app in H.
    destruct H as [_ H]. inversion H; subst. eauto.
Qed.

Lemma strip_digits (s : pystr) : digits s -> strip s = s.
Proof.
  intros H. destruct (digits_ends s H) as [[a [mid [Ha Hda]]] [pre [z [Hz Hdz]]]].
  apply (strip_fixed s a z mid); eauto;
    [apply (digit_not_space a Hda) | apply (digit_not_space z Hdz)].
Qed.

(** *** int *)

Lemma int_digits_all (s : pystr) :
  Forall (fun c => is_digit c = true) s ->
  forall b acc, (s <> [] \/ b = true) ->
  int_digits b acc s = Some (fold_left (fun a c => 10 * a + digit_val c) s acc).
Proof.
  induction 1 as [|c s Hc Hs IH]; intros b acc Hb; simpl.
  - destruct Hb as [Hb | Hb]; [contradiction | subst b; reflexivity].
  - rewrite Hc. apply IH. right; reflexivity.
Qed.

Lemma int_lskip_fixed (c : ascii) (s : pystr) :
  int_space c = false -> int_lskip (c :: s) = c :: s.
Proof. intros H; simpl; rewrite H; reflexivity. Qed.

Lemma int_of_digits (s : pystr) : digits s -> int s = Ok (decimal_value s).
Proof.
  intros H. destruct (digits_ends s H) as [[a [mid [Ha Hda]]] [pre [z [Hz Hdz]]]].
  unfold int.
  assert (E : rev (int_lskip (rev (int_lskip s))) = s).
  { destruct (digit_not_space a Hda) as (_ & Hsa & _).
    destruct (digit_not_space z Hdz) as (_ & Hsz & _).
    rewrite Ha at 1. rewrite int_lskip_fixed by assumption.
    rewrite <- Ha. rewrite Hz at 1. rewrite rev_app_distr. simpl.
    rewrite Hsz. simpl. rewrite rev_involutive. symmetry; exact Hz. }
  rewrite E. unfold int_body. rewrite Ha.
  destruct (digit_not_mark a Hda) as (Hp & _ & Hm & _).
  rewrite (eqb_false_of_neq _ _ Hm), (eqb_false_of_neq _ _ Hp). rewrite <- Ha.
  rewrite (int_digits_all s (proj2 H) false 0) by (left; exact (proj1 H)).
  reflexivity.
Qed.

(** [int] raises nothing but [ValueError]. *)
Lemma int_raises_value_error (s : pystr) (e : exn) :
  int s = Raise e -> e = ValueError s.
Proof. unfold int; destruct (int_body _); congruence. Qed.

(** *** Substrings *)

Lemma startswith_iff (p s : pystr) :
  startswith p s = true <-> exists r, s = p ++ r.
Proof.
  revert s; induction p as [|a p IH]; intros s; simpl.
  - split; eauto.
  - destruct s as [|b s]; [split; [discriminate | intros [r Hr]; discriminate]|].
    rewrite andb_true_iff, Ascii.eqb_eq, IH. split.
    + intros [-> [r ->]]; eauto.
    + intros [r Hr]; injection Hr as -> ->; eauto.
Qed.

Lemma contains_iff (p s : pystr) :
  contains p s = true <-> exists l r, s = l ++ p ++ r.
Proof.
  induction s as [|c s IH]; simpl.
  - rewrite orb_false_r, startswith_iff. split.
    + intros [r Hr]; exists [], r; exact Hr.
    + intros [l [r Hr]]. destruct l; [eauto|discriminate].
  - rewrite orb_true_iff, startswith_iff, IH. split.
    + intros [[r Hr]|[l [r ->]]]; [exists [], r; exact Hr | exists (c :: l), r; reflexivity].
    + intros [l [r Hr]]. destruct l as [|a l]; [left; eauto|].
      right. injection Hr as _ ->. eauto.
Qed.

Lemma contains_trans (a b c : pystr) :
  contains a b = true -> contains b c = true -> contains a c = true.
Proof.
  rewrite !contains_iff. intros [l1 [r1 ->]] [l2 [r2 ->]].
  exists (l2 ++ l1), (r1 ++ r2). rewrite <- !app_assoc. reflexivity.
Qed.

End PyStrFacts.

(** ** The summary report *)

Module FlagstatFacts.

Import PyStr Spec PyStrFacts Flagstat.

(** A report of one line with a single '+': the text left of it is the
    count, the text right of it, up to the first '(', the description. *)
Lemma flagstat_single_line (left right : pystr) (n : Z) :
  free_of "+"%char left -> free_of "+"%char right ->
  one_line left -> one_line right ->
  int (strip left) = Ok n ->
  flagstat_data (left ++ "+"%char :: right)
  = Ok [ (lower (strip (item (split "("%char right) 0)), n) ].
Proof.
  intros Hl Hr Ol Or Hn. unfold flagstat_data.
  rewrite splitlines_one_line.
  - unfold flagstat_lines. simpl for_each. unfold flagstat_step.
    rewrite (truthy_strip (left ++ "+"%char :: right) "+"%char);
      [| apply in_or_app; right; left; reflexivity | reflexivity].
    rewrite split_app, (split_free _ _ Hr) by assumption.
    cbn [List.length Nat.eqb item nth]. rewrite Hn. reflexivity.
  - apply one_line_app; [assumption|]. constructor; [reflexivity | assumption].
  - destruct left; discriminate.
Qed.

Lemma metrics_single_line (left right : pystr) :
  free_of "+"%char left -> free_of "+"%char right ->
  one_line left -> one_line right ->
  metrics (left ++ "+"%char :: right)
  = [ str "**" ++ strip (item (split "("%char right) 0)
      ++ str "**: `" ++ strip left ++ str "`" ].
Proof.
  intros Hl Hr Ol Or. unfold metrics.
  rewrite splitlines_one_line.
  - cbn [fold_left]. unfold metrics_step.
    rewrite (truthy_strip (left ++ "+"%char :: right) "+"%char);
      [| apply in_or_app; right; left; reflexivity | reflexivity].
    rewrite split_app, (split_free _ _ Hr) by assumption.
    reflexivity.
  - apply one_line_app; [assumption|]. constructor; [reflexivity | assumption].
  - destruct left; discriminate.
Qed.

Lemma digits_free (c : ascii) (s : pystr) :
  is_digit c = false -> digits s -> free_of c s.
Proof.
  intros Hc [_ H] Hin. rewrite Forall_forall in H. specialize (H c Hin). congruence.
Qed.

Lemma mark_free (c a : ascii) : a <> c -> free_of c [a].
Proof. intros H [E|[]]. exact (H E). Qed.

(** The shape of a summary line "<n> + <m> <desc> (extra)" with a
    single '+': what stands left of the '+', what stands right of it,
    and what the parsers make of the two. *)
Lemma summary_line_shape (n_txt m_txt desc extra : pystr) :
  digits n_txt -> digits m_txt ->
  one_line desc -> free_of "+"%char desc -> free_of "("%char desc ->
  one_line extra -> free_of "+"%char extra ->
  exists left right,
    n_txt ++ str " + " ++ m_txt ++ str " " ++ desc ++ str " (" ++ extra ++ str ")"
    = left ++ "+"%char :: right /\
    free_of "+"%char left /\ free_of "+"%char right /\
    one_line left /\ one_line right /\
    strip left = n_txt /\
    strip (item (split "("%char right) 0) = strip (m_txt ++ str " " ++ desc).
Proof.
  intros Hn Hm Od Pd Qd Oe Pe.
  pose proof (digits_free "+"%char _ eq_refl Hn) as Pn.
  pose proof (digits_free "+"%char _ eq_refl Hm) as Pm.
  pose proof (digits_free "("%char _ eq_refl Hm) as Qm.
  pose proof (digits_one_line _ Hn) as On.
  pose proof (digits_one_line _ Hm) as Om.
  set (head := [" "%char] ++ (m_txt ++ str " " ++ desc) ++ [" "%char]).
  exists (n_txt ++ [" "%char]), (head ++ "("%char :: (extra ++ [")"%char])).
  assert (Fh : free_of "("%char head).
  { unfold head. cbn [str list_ascii_of_string].
    repeat apply free_of_app; try assumption; apply mark_free; discriminate. }
  repeat apply conj.
  - unfold head. cbn [str list_ascii_of_string].
    rewrite <- !app_assoc. cbn [app]. reflexivity.
  - apply free_of_app; [assumption | apply mark_free; discriminate].
  - unfold head. cbn [str list_ascii_of_string].
    apply free_of_app.
    + repeat apply free_of_app; try assumption; apply mark_free; discriminate.
    + change ("("%char :: extra ++ [")"%char])
        with (["("%char] ++ extra ++ [")"%char]).
      repeat apply free_of_app; try assumption; apply mark_free; discriminate.
  - apply one_line_app; [assumption | repeat constructor].
  - unfold head. cbn [str list_ascii_of_string].
    change ("("%char :: extra ++ [")"%char])
      with (["("%char] ++ extra ++ [")"%char]).
    repeat apply one_line_app; try assumption; repeat constructor.
  - change (n_txt ++ [" "%char]) with ([] ++ n_txt ++ [" "%char]).
    rewrite strip_pad by repeat constructor. apply strip_digits; assumption.
  - rewrite split_app by exact Fh. cbn [item nth]. unfold head.
    apply strip_pad; repeat constructor.
Qed.

End FlagstatFacts.

(** C1, as the code has it.  A summary line "<n> + <m> <desc> (extra)"
    whose only '+' is the one after the first integer yields a single
    entry: its count is the first integer [n], and its key is the text
    between the '+' and the first '(', stripped and in lower case, which
    still starts with the second integer [m].  The Statistics tab shows
    the same two pieces, the key in its original case. *)
Theorem flagstat_line_entry (n_txt m_txt desc extra : pystr) :
  Spec.digits n_txt -> Spec.digits m_txt ->
  Spec.one_line desc -> Spec.free_of "+"%char desc -> Spec.free_of "("%char desc ->
  Spec.one_line extra -> Spec.free_of "+"%char extra ->
  Flagstat.flagstat_data
    (n_txt ++ str " + " ++ m_txt ++ str " " ++ desc ++ str " (" ++ extra ++ str ")")
  = Ok [ (PyStr.lower (PyStr.strip (m_txt ++ str " " ++ desc)),
          Spec.decimal_value n_txt) ]
  /\ Flagstat.metrics
       (n_txt ++ str " + " ++ m_txt ++ str " " ++ desc ++ str " (" ++ extra ++ str ")")
     = [ str "**" ++ PyStr.strip (m_txt ++ str " " ++ desc)
         ++ str "**: `" ++ n_txt ++ str "`" ].
Proof.
  intros Hn Hm Od Pd Qd Oe Pe.
  destruct (FlagstatFacts.summary_line_shape
              n_txt m_txt desc extra Hn Hm Od Pd Qd Oe Pe)
    as (left & right & -> & Fl & Fr & Ol & Or & Sl & Sr).
  split.
  - rewrite (FlagstatFacts.flagstat_single_line
               left right (Spec.decimal_value n_txt) Fl Fr Ol Or).
    + rewrite Sr. reflexivity.
    + rewrite Sl. apply PyStrFacts.int_of_digits. exact Hn.
  - rewrite (FlagstatFacts.metrics_single_line left right Fl Fr Ol Or).
    rewrite Sl, Sr. reflexivity.
Qed.

Lemma flagstat_line_entry_witness :
  Flagstat.flagstat_data (str "900 + 0 mapped (90.00% : N/A)")
  = Ok [ (str "0 mapped", 900) ]
  /\ Flagstat.metrics (str "900 + 0 mapped (90.00% : N/A)")
     = [ str "**0 mapped**: `900`" ].
Proof.
  refine (flagstat_line_entry (str "900") (str "0") (str "mapped")
                              (str "90.00% : N/A") _ _ _ _ _ _ _).
  - split; [discriminate | repeat constructor].
  - split; [discriminate | repeat constructor].
  - repeat constructor.
  - unfold Spec.free_of; cbn; intuition discriminate.
  - unfold Spec.free_of; cbn; intuition discriminate.
  - repeat constructor.
  - unfold Spec.free_of; cbn; intuition discriminate.
Defined.

(** C1, as the spec words it, fails.  Its own example holds a second
    '+' inside the parentheses, so the line splits into three parts and
    the parser passes over it; and where a line is parsed, the key is
    not the bare description: the second integer stays in front. *)
Lemma flagstat_in_total_line_dropped :
  Flagstat.flagstat_data
    (str "1000 + 0 in total (QC-passed reads + QC-failed reads)") = Ok []
  /\ Flagstat.flagstat_data
       (str "1000 + 0 in total (QC-passed reads + QC-failed reads)")
     <> Ok [ (str "in total", 1000) ]
  /\ Flagstat.flagstat_data (str "900 + 0 mapped (90.00% : N/A)")
     <> Ok [ (str "mapped", 900) ].
Proof.
  split; [vm_compute; reflexivity|].
  split; vm_compute; discriminate.
Qed.

(** ** Frames *)

Module PandasFacts.

Import PyStr Pandas Spec.

(** *** Sorting, largest key first *)

Section Sorting.

Context {A : Type}.


Lemma insert_desc_perm (x : Z * A) (l : list (Z * A)) :
  Permutation (insert_desc x l) (x :: l).
Proof.
  induction l as [|y l IH]; simpl; [reflexivity|].
  destruct (fst y <=? fst x); [reflexivity|].
  rewrite IH. apply perm_swap.
Qed.

Lemma sort_desc_perm (l : list (Z * A)) : Permutation (sort_desc l) l.
Proof.
  induction l as [|x l IH]; simpl; [reflexivity|].
  rewrite insert_desc_perm. constructor; exact IH.
Qed.

Lemma insert_desc_sorted (x : Z * A) (l : list (Z * A)) :
  StronglySorted (@key_ge A) l -> StronglySorted (@key_ge A) (insert_desc x l).
Proof.
  induction 1 as [|y l Hl IH Hy]; simpl.
  - repeat constructor.
  - destruct (fst y <=? fst x) eqn:E.
    + apply Z.leb_le in E. constructor; [constructor; assumption|].
      constructor; [unfold key_ge; lia|].
      eapply Forall_impl; [|exact Hy]. unfold key_ge; intros z Hz; lia.
    + apply Z.leb_gt in E. constructor; [exact IH|].
      eapply Permutation_Forall; [symmetry; apply insert_desc_perm|].
      constructor; [unfold key_ge; lia | exact Hy].
Qed.

Lemma sort_desc_sorted (l : list (Z * A)) : StronglySorted (@key_ge A) (sort_desc l).
Proof.
  induction l as [|x l IH]; simpl; [constructor|].
  apply insert_desc_sorted; exact IH.
Qed.

End Sorting.

Lemma sorted_firstn {A : Type} (R : A -> A -> Prop) (n : nat) (l : list A) :
  StronglySorted R l -> StronglySorted R (firstn n l).
Proof.
  intros H; revert n; induction H as [|x l Hl IH Hx]; intros [|n]; simpl;
    try constructor.
  - apply IH.
  - rewrite Forall_forall in *. intros y Hy. apply Hx.
    eapply (In_nth_error) in Hy. destruct Hy as [i Hi].
    apply nth_error_In with i. rewrite nth_error_firstn in Hi.
    destruct (i <? n)%nat; [exact Hi | discriminate].
Qed.

Lemma sorted_map {A B : Type} (R : A -> A -> Prop) (S : B -> B -> Prop)
      (f : A -> B) (l : list A) :
  (forall a b, R a b -> S (f a) (f b)) ->
  StronglySorted R l -> StronglySorted S (map f l).
Proof.
  intros HRS; induction 1 as [|x l Hl IH Hx]; simpl; constructor; [exact IH|].
  apply Forall_map. eapply Forall_impl; [|exact Hx]. intros a; apply HRS.
Qed.

(** Sorting the image of a list under [f] sorts the list itself. *)
Lemma sort_desc_image {A B : Type} (f : A -> Z * B) (l : list A) :
  exists l', sort_desc (map f l) = map f l' /\ Permutation l l' /\
             StronglySorted (fun a b => fst (f a) >= fst (f b)) l'.
Proof.
  destruct (Permutation_map_inv f l (sort_desc_perm (map f l))) as [l' [E P]].
  exists l'; repeat split; [exact E | exact P |].
  pose proof (sort_desc_sorted (map f l)) as S. rewrite E in S. clear E P.
  induction l' as [|a l' IH]; [constructor|].
  simpl in S. inversion S as [|? ? S' F]; subst.
  constructor; [apply IH; exact S'|].
  rewrite Forall_map in F. exact F.
Qed.

(** *** The frame of the parsed rows *)

Lemma ints_of_column (f : reference -> Z) (refs : list reference) :
  ints_of (map (fun r => VInt (f r)) refs) = Some (map f refs).
Proof.
  induction refs as [|r refs IH]; simpl; [reflexivity|].
  rewrite IH. reflexivity.
Qed.

Lemma dtype_of_column (f : reference -> Z) (refs : list reference) :
  refs <> [] ->
  dtype_of (map (fun r => VInt (f r)) refs) = int_dtype (map f refs).
Proof.
  destruct refs as [|r refs]; [congruence|]. intros _.
  unfold dtype_of. rewrite ints_of_column. reflexivity.
Qed.

Lemma numeric_columns (refs : list reference) :
  elementwise cell_truediv (map (fun r => VInt (ref_mapped r)) refs)
                           (map (fun r => VInt (ref_length r)) refs)
  = Ok (map (fun r => VFloat (coverage_of r)) refs).
Proof.
  induction refs as [|r refs IH]; simpl; [reflexivity|].
  rewrite IH. reflexivity.
Qed.

Lemma python_truediv_ok (a b : Z) (f : float64) :
  python_truediv a b = Ok f -> b <> 0 /\ f = int64_truediv a b.
Proof.
  unfold python_truediv, int64_truediv. destruct (b =? 0) eqn:E; [discriminate|].
  destruct (float_overflow_bound * Z.abs b <=? Z.abs a); [discriminate|].
  intros H; injection H as <-. split; [apply Z.eqb_neq; exact E | reflexivity].
Qed.

(** Where Python's division goes through on every row it gives what
    numpy's gives, and no length is zero. *)
Lemma python_columns_ok (refs : list reference) (s : Series) :
  elementwise python_cell_truediv (map (fun r => VInt (ref_mapped r)) refs)
                                  (map (fun r => VInt (ref_length r)) refs)
  = Ok s ->
  s = map (fun r => VFloat (coverage_of r)) refs /\
  Forall (fun r => ref_length r <> 0) refs.
Proof.
  revert s; induction refs as [|r refs IH]; intros s; simpl.
  - intros H; injection H as <-. split; [reflexivity | constructor].
  - destruct (python_truediv (ref_mapped r) (ref_length r)) as [f|e] eqn:E;
      cbn [bind]; [|discriminate].
    destruct (elementwise python_cell_truediv
                (map (fun r => VInt (ref_mapped r)) refs)
                (map (fun r => VInt (ref_length r)) refs)) as [qs|e];
      cbn [bind]; [|discriminate].
    intros H; injection H as <-.
    destruct (IH qs eq_refl) as [-> F].
    destruct (python_truediv_ok _ _ _ E) as [Hl ->].
    split; [reflexivity | constructor; assumption].
Qed.

(** Whenever the division of the two columns returns, it returns the
    coverage of each row. *)
Lemma truediv_columns_ok (refs : list reference) (s : Series) :
  truediv (map (fun r => VInt (ref_mapped r)) refs)
          (map (fun r => VInt (ref_length r)) refs) = Ok s ->
  s = map (fun r => VFloat (coverage_of r)) refs.
Proof.
  unfold truediv.
  destruct (is_machine _ && is_machine _).
  - rewrite numeric_columns. intros H; injection H as <-. reflexivity.
  - intros H. apply (python_columns_ok refs s H).
Qed.

(** On columns of machine integers it always returns. *)
Lemma truediv_columns (refs : list reference) :
  refs <> [] -> Observe.machine_columns refs ->
  truediv (map (fun r => VInt (ref_mapped r)) refs)
          (map (fun r => VInt (ref_length r)) refs)
  = Ok (map (fun r => VFloat (coverage_of r)) refs).
Proof.
  intros Hne [Hl Hm]. unfold truediv.
  rewrite !dtype_of_column by exact Hne.
  unfold Observe.machine_ints in Hl, Hm. rewrite Hl, Hm. cbn [andb].
  apply numeric_columns.
Qed.

Lemma int_keys_mapped (refs : list reference) :
  int_keys (map (fun r => VInt (ref_mapped r)) refs) = Ok (map ref_mapped refs).
Proof.
  induction refs as [|r refs IH]; simpl; [reflexivity|].
  rewrite IH. reflexivity.
Qed.

Lemma map2_append_column (refs : list reference) :
  map2 (fun row v => row ++ [v]) (map cells_of refs)
       (map (fun r => VFloat (coverage_of r)) refs)
  = map frame_row refs.
Proof.
  induction refs as [|r refs IH]; simpl; [reflexivity|].
  rewrite IH. reflexivity.
Qed.

Lemma add_keys_again (r : reference) :
  add_keys ["Chromosome"; "Length"; "Mapped"; "Unmapped"]%string (record_of r)
  = ["Chromosome"; "Length"; "Mapped"; "Unmapped"]%string.
Proof. reflexivity. Qed.

Lemma columns_of_records (refs : list reference) :
  refs <> [] ->
  fold_left add_keys (map record_of refs) []
  = ["Chromosome"; "Length"; "Mapped"; "Unmapped"]%string.
Proof.
  destruct refs as [|r refs]; [congruence|]. intros _. simpl.
  change (add_keys [] (record_of r))
    with ["Chromosome"; "Length"; "Mapped"; "Unmapped"]%string.
  induction refs as [|r' refs IH]; simpl; [reflexivity|].
  rewrite add_keys_again. exact IH.
Qed.

Lemma frame_of_references (refs : list reference) :
  refs <> [] ->
  DataFrame_of_records (map record_of refs)
  = {| columns := ["Chromosome"; "Length"; "Mapped"; "Unmapped"]%string;
       rows := map cells_of refs |}.
Proof.
  intros H. unfold DataFrame_of_records. rewrite columns_of_records by exact H.
  f_equal. rewrite map_map. reflexivity.
Qed.

Lemma int_column_mapped (refs : list reference) :
  int_column (reference_frame refs) "Mapped" = Ok (map ref_mapped refs).
Proof.
  unfold int_column, getitem, reference_frame. simpl.
  rewrite map_map. simpl. apply int_keys_mapped.
Qed.

End PandasFacts.

(** ** The per-reference report *)

Module IdxstatsFacts.

Import PyStr Pandas Spec Observe PyStrFacts PandasFacts Idxstats.

(** What a turn appends does not depend on the rows collected so far. *)
Lemma chr_step_from (acc : list record) (line : pystr) :
  chr_step acc line = (r <- chr_step [] line ;; Ok (acc ++ r)).
Proof.
  unfold chr_step.
  destruct (truthy (strip line));
    [|cbn [bind]; rewrite app_nil_r; reflexivity].
  destruct (3 <=? List.length (split TAB line))%nat;
    [|cbn [bind]; rewrite app_nil_r; reflexivity].
  destruct (int (item (split TAB line) 1)); [|reflexivity].
  destruct (int (item (split TAB line) 2)); [|reflexivity].
  destruct (3 <? List.length (split TAB line))%nat; [|reflexivity].
  destruct (int (item (split TAB line) 3)); reflexivity.
Qed.

Lemma chr_lines_from (lines : list pystr) (acc : list record) :
  for_each chr_step lines acc = (r <- chr_lines lines ;; Ok (acc ++ r)).
Proof.
  unfold chr_lines. revert acc; induction lines as [|l lines IH]; intros acc; simpl.
  - rewrite app_nil_r; reflexivity.
  - rewrite (chr_step_from acc l).
    destruct (chr_step [] l) as [r|e]; simpl; [|reflexivity].
    rewrite (IH (acc ++ r)), (IH r).
    destruct (for_each chr_step lines []); simpl; [|reflexivity].
    rewrite app_assoc; reflexivity.
Qed.

Lemma chr_lines_app (l1 l2 : list pystr) :
  chr_lines (l1 ++ l2)
  = (r1 <- chr_lines l1 ;; r2 <- chr_lines l2 ;; Ok (r1 ++ r2)).
Proof.
  unfold chr_lines at 1. rewrite for_each_app. fold (chr_lines l1).
  destruct (chr_lines l1) as [r1|e]; simpl; [|reflexivity].
  apply chr_lines_from.
Qed.


Lemma chr_step_value_error (acc : list record) (line : pystr) (e : exn) :
  chr_step acc line = Raise e -> exists lit, e = ValueError lit.
Proof.
  unfold chr_step.
  destruct (truthy (strip line)); [|discriminate].
  destruct (3 <=? List.length (split TAB line))%nat; [|discriminate].
  destruct (int (item (split TAB line) 1)) eqn:E1; simpl;
    [|intros H; injection H as <-; eauto using int_raises_value_error].
  destruct (int (item (split TAB line) 2)) eqn:E2; simpl;
    [|intros H; injection H as <-; eauto using int_raises_value_error].
  destruct (3 <? List.length (split TAB line))%nat; simpl; [|discriminate].
  destruct (int (item (split TAB line) 3)) eqn:E3; simpl;
    [discriminate|intros H; injection H as <-; eauto using int_raises_value_error].
Qed.

Lemma chr_step_shape (acc : list record) (line : pystr) (acc' : list record) :
  chr_step acc line = Ok acc' ->
  acc' = acc \/ exists r, acc' = acc ++ [record_of r].
Proof.
  unfold chr_step.
  destruct (truthy (strip line)); [|intros H; injection H as <-; left; reflexivity].
  destruct (3 <=? List.length (split TAB line))%nat;
    [|intros H; injection H as <-; left; reflexivity].
  destruct (int (item (split TAB line) 1)) as [l|]; simpl; [|discriminate].
  destruct (int (item (split TAB line) 2)) as [m|]; simpl; [|discriminate].
  destruct (3 <? List.length (split TAB line))%nat; simpl.
  - destruct (int (item (split TAB line) 3)) as [u|]; simpl; [|discriminate].
    intros H; injection H as <-; right.
    exists {| ref_name := item (split TAB line) 0; ref_length := l;
              ref_mapped := m; ref_unmapped := u |}. reflexivity.
  - intros H; injection H as <-; right.
    exists {| ref_name := item (split TAB line) 0; ref_length := l;
              ref_mapped := m; ref_unmapped := 0 |}. reflexivity.
Qed.

Lemma for_each_shape (lines : list pystr) (refs : list reference) (recs : list record) :
  for_each chr_step lines (map record_of refs) = Ok recs ->
  exists refs', recs = map record_of refs'.
Proof.
  revert refs; induction lines as [|l lines IH]; intros refs; simpl.
  - intros H; injection H as <-; eauto.
  - destruct (chr_step (map record_of refs) l) as [acc'|e] eqn:E; simpl; [|discriminate].
    apply chr_step_shape in E. destruct E as [->|[r ->]]; [apply IH|].
    change [record_of r] with (map record_of [r]). rewrite <- map_app. apply IH.
Qed.

(** Every dict the parser collects is the dict of a parsed row. *)
Lemma chr_data_shape (stats : pystr) (recs : list record) :
  chr_data stats = Ok recs -> exists refs, recs = map record_of refs.
Proof. apply (for_each_shape (splitlines stats) []). Qed.

Lemma chr_data_value_error (stats : pystr) (e : exn) :
  chr_data stats = Raise e -> exists lit, e = ValueError lit.
Proof.
  unfold chr_data, chr_lines. generalize (@nil record).
  induction (splitlines stats) as [|l lines IH]; intros acc; simpl; [discriminate|].
  destruct (chr_step acc l) as [acc'|e'] eqn:E; simpl.
  - apply IH.
  - intros H; injection H as <-. eapply chr_step_value_error; exact E.
Qed.

Lemma with_coverage_columns (refs : list reference) :
  refs <> [] ->
  with_coverage (DataFrame_of_records (map record_of refs))
  = (coverage <- truediv (map (fun r => VInt (ref_mapped r)) refs)
                         (map (fun r => VInt (ref_length r)) refs) ;;
     Ok (setitem {| columns := ["Chromosome"; "Length"; "Mapped"; "Unmapped"]%string;
                    rows := map cells_of refs |} "Coverage" coverage)).
Proof.
  intros H. rewrite frame_of_references by exact H.
  unfold with_coverage, getitem. simpl. rewrite !map_map. reflexivity.
Qed.

Lemma setitem_coverage (refs : list reference) :
  setitem {| columns := ["Chromosome"; "Length"; "Mapped"; "Unmapped"]%string;
             rows := map cells_of refs |} "Coverage"
          (map (fun r => VFloat (coverage_of r)) refs)
  = reference_frame refs.
Proof.
  unfold setitem. simpl. rewrite map2_append_column. reflexivity.
Qed.

(** Line 71 on columns of machine integers. *)
Lemma with_coverage_references (refs : list reference) :
  refs <> [] -> Observe.machine_columns refs ->
  with_coverage (DataFrame_of_records (map record_of refs))
  = Ok (reference_frame refs).
Proof.
  intros H M. rewrite with_coverage_columns by exact H.
  rewrite truediv_columns by assumption. cbn [bind].
  rewrite setitem_coverage. reflexivity.
Qed.

(** Line 71 on any columns: the frame it returns, when it returns. *)
Lemma with_coverage_ok (refs : list reference) (d : DataFrame) :
  refs <> [] ->
  with_coverage (DataFrame_of_records (map record_of refs)) = Ok d ->
  d = reference_frame refs.
Proof.
  intros H. rewrite with_coverage_columns by exact H.
  destruct (truediv _ _) as [s|e] eqn:E; cbn [bind]; [|discriminate].
  apply truediv_columns_ok in E. subst s.
  rewrite setitem_coverage. intros K; injection K as <-. reflexivity.
Qed.

Lemma with_coverage_empty :
  with_coverage (DataFrame_of_records []) = Raise (KeyError "Mapped").
Proof. reflexivity. Qed.

Lemma rows_sorted_frame (refs : list reference) :
  exists sorted,
    Permutation refs sorted /\ by_mapped_desc sorted /\
    map snd (sort_desc (combine (map ref_mapped refs) (map frame_row refs)))
    = map frame_row sorted.
Proof.
  destruct (sort_desc_image (fun r => (ref_mapped r, frame_row r)) refs)
    as [sorted [E [P S]]].
  exists sorted; repeat split; [exact P | exact S |].
  replace (combine (map ref_mapped refs) (map frame_row refs))
    with (map (fun r => (ref_mapped r, frame_row r)) refs).
  - rewrite E, map_map. reflexivity.
  - clear. induction refs as [|r refs IH]; simpl; [reflexivity|].
    rewrite IH; reflexivity.
Qed.

Lemma getitem_mapped (refs : list reference) :
  getitem (reference_frame refs) "Mapped"
  = Ok (map (fun r => VInt (ref_mapped r)) refs).
Proof.
  unfold getitem, reference_frame. simpl. rewrite map_map. reflexivity.
Qed.

(** Line 81 on the frame of the parsed rows. *)
Lemma sort_values_references (refs : list reference) :
  sort_values_desc (reference_frame refs) "Mapped"
  = Ok {| columns := frame_columns;
          rows := map snd (sort_desc (combine (map ref_mapped refs)
                                              (map frame_row refs))) |}.
Proof.
  unfold sort_values_desc. rewrite getitem_mapped. cbn [bind].
  rewrite int_keys_mapped. reflexivity.
Qed.

(** Line 72 on the frame of the parsed rows, when it returns. *)
Lemma nlargest_references_ok (refs : list reference) (n : nat) (t : DataFrame) :
  nlargest (reference_frame refs) n "Mapped" = Ok t ->
  t = {| columns := frame_columns;
         rows := firstn n (map snd (sort_desc (combine (map ref_mapped refs)
                                                       (map frame_row refs)))) |}.
Proof.
  unfold nlargest. rewrite getitem_mapped. cbn [bind].
  rewrite int_keys_mapped. cbn [bind].
  destruct (dtype_of _); intros H; try discriminate H;
    injection H as <-; reflexivity.
Qed.

(** Line 72 on a column of machine integers. *)
Lemma nlargest_references (refs : list reference) (n : nat) :
  refs <> [] -> machine_ints (map ref_mapped refs) = true ->
  nlargest (reference_frame refs) n "Mapped"
  = Ok {| columns := frame_columns;
          rows := firstn n (map snd (sort_desc (combine (map ref_mapped refs)
                                                        (map frame_row refs)))) |}.
Proof.
  intros Hne Hm. unfold nlargest. rewrite getitem_mapped. cbn [bind].
  rewrite int_keys_mapped. cbn [bind].
  rewrite dtype_of_column by exact Hne.
  unfold machine_ints in Hm.
  destruct (int_dtype (map ref_mapped refs)); try discriminate Hm; reflexivity.
Qed.

(** The frames of the Chromosomes tab for a report with at least one
    row whose lengths and counts are machine integers: the frame in
    report order, its rows sorted by mapped count and the first five of
    those. *)
Lemma chromosome_frames_references (stats : pystr) (refs : list reference) :
  chr_data stats = Ok (map record_of refs) -> refs <> [] ->
  machine_columns refs ->
  exists sorted,
    Permutation refs sorted /\ by_mapped_desc sorted /\
    chromosome_frames stats
    = Ok {| df := reference_frame refs;
            top_df := reference_frame (firstn 5 sorted);
            all_sorted := reference_frame sorted |}.
Proof.
  intros Hd Hne M. destruct (rows_sorted_frame refs) as [sorted [P [S E]]].
  exists sorted; repeat split; [exact P | exact S |].
  unfold chromosome_frames. rewrite Hd. cbn [bind].
  rewrite with_coverage_references by assumption. cbn [bind].
  rewrite nlargest_references by (try exact Hne; apply M). cbn [bind].
  rewrite sort_values_references. cbn [bind].
  rewrite E. unfold reference_frame. rewrite firstn_map. reflexivity.
Qed.

(** The same frames, for any report on which lines 71 to 81 return. *)
Lemma chromosome_frames_returned (stats : pystr) (refs : list reference)
      (v : chromosome_views) :
  chr_data stats = Ok (map record_of refs) -> refs <> [] ->
  chromosome_frames stats = Ok v ->
  exists sorted,
    Permutation refs sorted /\ by_mapped_desc sorted /\
    v = {| df := reference_frame refs;
           top_df := reference_frame (firstn 5 sorted);
           all_sorted := reference_frame sorted |}.
Proof.
  intros Hd Hne Hv. destruct (rows_sorted_frame refs) as [sorted [P [S E]]].
  exists sorted; repeat split; [exact P | exact S |].
  unfold chromosome_frames in Hv. rewrite Hd in Hv. cbn [bind] in Hv.
  destruct (with_coverage _) as [d|e] eqn:W; cbn [bind] in Hv; [|discriminate Hv].
  apply with_coverage_ok in W; [|exact Hne]. subst d.
  destruct (nlargest _ 5 "Mapped") as [t|e] eqn:N; cbn [bind] in Hv;
    [|discriminate Hv].
  apply nlargest_references_ok in N. subst t.
  rewrite sort_values_references in Hv. cbn [bind] in Hv.
  rewrite E, firstn_map in Hv. injection Hv as <-. reflexivity.
Qed.

End IdxstatsFacts.

Module PyStrMore.

Import PyStr Spec PyStrFacts.

Lemma int_lskip_incl (c : ascii) (s : pystr) : In c (int_lskip s) -> In c s.
Proof.
  induction s as [|a s IH]; simpl; [tauto|].
  destruct (int_space a); [right; apply IH; assumption | tauto].
Qed.

Lemma space_not_numeral (c : ascii) :
  isspace c = true ->
  Ascii.eqb c "-"%char = false /\ Ascii.eqb c "+"%char = false /\
  is_digit c = false /\ Ascii.eqb c "_"%char = false.
Proof. each_ascii c; intros H; try discriminate H; repeat split. Qed.

(** A text [int] accepts holds a character that is not white space. *)
Lemma int_ok_not_blank (s : pystr) (z : Z) :
  int s = Ok z -> exists c, In c s /\ isspace c = false.
Proof.
  unfold int. destruct (int_body _) as [z'|] eqn:E; [intros _|discriminate].
  destruct (rev (int_lskip (rev (int_lskip s)))) as [|c rest] eqn:T;
    [discriminate E|].
  exists c. split.
  - apply int_lskip_incl, in_rev, int_lskip_incl, in_rev. rewrite T. left; reflexivity.
  - destruct (isspace c) eqn:Hc; [|reflexivity].
    destruct (space_not_numeral c Hc) as (H1 & H2 & H3 & H4).
    simpl in E. rewrite H1, H2, H3, H4 in E. discriminate E.
Qed.

Lemma split_part_incl (sep c : ascii) (s : pystr) (i : nat) :
  In c (item (split sep s) i) -> In c s.
Proof.
  unfold item. revert i; induction s as [|a s IH]; intros i; simpl.
  - destruct i as [|[|i]]; simpl; tauto.
  - destruct (Ascii.eqb a sep).
    + destruct i as [|i]; simpl; [tauto|]. intros H; right; eapply IH; exact H.
    + destruct (split sep s) as [|p ps] eqn:Es.
      * destruct i as [|[|i]]; simpl; tauto.
      * destruct i as [|i]; simpl.
        -- intros [->|H]; [left; reflexivity | right; apply (IH 0%nat); exact H].
        -- intros H; right; apply (IH (S i)); exact H.
Qed.

End PyStrMore.



(** C5, as the code has it.  When the report has a row and the lengths
    and the mapped counts of its rows are stored as machine integers,
    line 71 raises nothing and the three frames exist; the derived
    column is computed for every row: a row of length zero gets NaN when
    its mapped count is zero and an infinity with the sign of the count
    otherwise, every other row the quotient mapped/length. *)
Theorem coverage_of_machine_columns (stats : pystr) (refs : list Spec.reference) :
  Idxstats.chr_data stats = Ok (map Spec.record_of refs) ->
  refs <> [] -> Observe.machine_columns refs ->
  let frame :=
    {| Pandas.columns :=
         [ "Chromosome"; "Length"; "Mapped"; "Unmapped"; "Coverage" ]%string;
       Pandas.rows :=
         map (fun r =>
                [ Pandas.VStr (Spec.ref_name r); Pandas.VInt (Spec.ref_length r);
                  Pandas.VInt (Spec.ref_mapped r); Pandas.VInt (Spec.ref_unmapped r);
                  Pandas.VFloat
                    (if Spec.ref_length r =? 0
                     then if Spec.ref_mapped r =? 0 then Pandas.NaN
                          else Pandas.Inf (Spec.ref_mapped r <? 0)
                     else Pandas.Quot (Spec.ref_mapped r) (Spec.ref_length r)) ])
             refs |} in
  Idxstats.with_coverage (Pandas.DataFrame_of_records (map Spec.record_of refs))
  = Ok frame
  /\ exists v, Idxstats.chromosome_frames stats = Ok v /\ Idxstats.df v = frame.
Proof.
  intros Hd Hne M frame.
  assert (F : frame = Spec.reference_frame refs) by reflexivity.
  rewrite F. split.
  - apply IdxstatsFacts.with_coverage_references; assumption.
  - destruct (IdxstatsFacts.chromosome_frames_references stats refs Hd Hne M)
      as [sorted [_ [_ E]]].
    eexists; split; [exact E | reflexivity].
Qed.

Lemma coverage_of_machine_columns_witness :
  Idxstats.with_coverage
    (Pandas.DataFrame_of_records
       (map Spec.record_of
            [ {| Spec.ref_name := str "chrUn"; Spec.ref_length := 0;
                 Spec.ref_mapped := 40; Spec.ref_unmapped := 0 |};
              {| Spec.ref_name := str "*"; Spec.ref_length := 0;
                 Spec.ref_mapped := 0; Spec.ref_unmapped := 3100 |} ]))
  = Ok {| Pandas.columns :=
            [ "Chromosome"; "Length"; "Mapped"; "Unmapped"; "Coverage" ]%string;
          Pandas.rows :=
            [ [ Pandas.VStr (str "chrUn"); Pandas.VInt 0; Pandas.VInt 40;
                Pandas.VInt 0; Pandas.VFloat (Pandas.Inf false) ];
              [ Pandas.VStr (str "*"); Pandas.VInt 0; Pandas.VInt 0;
                Pandas.VInt 3100; Pandas.VFloat Pandas.NaN ] ] |}.
Proof.
  refine (proj1 (coverage_of_machine_columns
                   (PyStr.join [PyStr.LF]
                      [ Spec.tsv ["chrUn"; "0"; "40"; "0"]%string;
                        Spec.tsv ["*"; "0"; "0"; "3100"]%string ])
                   [ {| Spec.ref_name := str "chrUn"; Spec.ref_length := 0;
                        Spec.ref_mapped := 40; Spec.ref_unmapped := 0 |};
                     {| Spec.ref_name := str "*"; Spec.ref_length := 0;
                        Spec.ref_mapped := 0; Spec.ref_unmapped := 3100 |} ]
                   _ _ _)).
  - vm_compute. reflexivity.
  - discriminate.
  - split; vm_compute; reflexivity.
Defined.

(** C5, as the spec words it, fails.  A row of length zero with mapped
    reads gets the coverage +inf, which is neither 0 nor a missing
    value.  And a count of more than 64 bits makes its column one of
    Python integers, which line 71 divides one by one: with a length of
    zero the division raises [ZeroDivisionError] and the tab stops. *)
Lemma zero_length_coverage :
  Idxstats.with_coverage
    (Pandas.DataFrame_of_records [ Spec.chr_record (str "chrUn") 0 40 0 ])
  = Ok {| Pandas.columns :=
            [ "Chromosome"; "Length"; "Mapped"; "Unmapped"; "Coverage" ]%string;
          Pandas.rows :=
            [ [ Pandas.VStr (str "chrUn"); Pandas.VInt 0; Pandas.VInt 40;
                Pandas.VInt 0; Pandas.VFloat (Pandas.Inf false) ] ] |}
  /\ Idxstats.chr_data Observe.wide_count_zero_length
     = Ok [ Spec.chr_record (str "big") 0 99999999999999999999 0 ]
  /\ Idxstats.with_coverage
       (Pandas.DataFrame_of_records
          [ Spec.chr_record (str "big") 0 99999999999999999999 0 ])
     = Raise ZeroDivisionError
  /\ Idxstats.chromosome_frames Observe.wide_count_zero_length
     = Raise ZeroDivisionError
  /\ snd (App.chromosomes_tab Observe.wide_count_zero_length [])
     = Raise ZeroDivisionError.
Proof.
  split; [vm_compute; reflexivity|].
  split; [vm_compute; reflexivity|].
  split; [vm_compute; reflexivity|].
  split; vm_compute; reflexivity.
Qed.

(** C8, as the code has it.  For a report of five rows or more whose
    lengths and mapped counts are stored as machine integers, the three
    frames of the tab exist and: [top_df] has exactly five rows, its mapped counts
    descend, each of its rows is a row of [df]; the sorted frame holds
    the rows of [df], all of them, with descending mapped counts; [df]
    itself is still the parsed rows in report order, so neither view
    changed it. *)
Theorem top5_and_sorted_views (stats : pystr) (refs : list Spec.reference) :
  Idxstats.chr_data stats = Ok (map Spec.record_of refs) ->
  (5 <= List.length refs)%nat -> Observe.machine_columns refs ->
  exists v,
    Idxstats.chromosome_frames stats = Ok v /\
    Pandas.nrows (Idxstats.top_df v) = 5%nat /\
    (exists ks, Spec.int_column (Idxstats.top_df v) "Mapped" = Ok ks /\
                Spec.descending ks) /\
    incl (Pandas.rows (Idxstats.top_df v)) (Pandas.rows (Idxstats.df v)) /\
    Pandas.columns (Idxstats.top_df v) = Pandas.columns (Idxstats.df v) /\
    Permutation (Pandas.rows (Idxstats.df v)) (Pandas.rows (Idxstats.all_sorted v)) /\
    (exists ks, Spec.int_column (Idxstats.all_sorted v) "Mapped" = Ok ks /\
                Spec.descending ks) /\
    Pandas.columns (Idxstats.all_sorted v) = Pandas.columns (Idxstats.df v) /\
    Idxstats.df v = Spec.reference_frame refs.
Proof.
  intros Hd Hlen M.
  destruct (IdxstatsFacts.chromosome_frames_references stats refs Hd)
    as [sorted [P [S E]]];
    [destruct refs; [simpl in Hlen; lia | discriminate] | exact M |].
  eexists; split; [exact E|]. cbn [Idxstats.df Idxstats.top_df Idxstats.all_sorted].
  assert (Hs : (5 <= List.length sorted)%nat)
    by (rewrite <- (Permutation_length P); exact Hlen).
  assert (D : forall l, Spec.by_mapped_desc l ->
                        Spec.descending (map Spec.ref_mapped l)).
  { intros l Hl. unfold Spec.descending.
    eapply PandasFacts.sorted_map; [|exact Hl]. intros a b H; exact H. }
  repeat apply conj.
  - unfold Pandas.nrows, Spec.reference_frame; cbn [Pandas.rows].
    rewrite length_map, length_firstn. lia.
  - exists (map Spec.ref_mapped (firstn 5 sorted)). split.
    + apply PandasFacts.int_column_mapped.
    + apply D. apply PandasFacts.sorted_firstn. exact S.
  - unfold Spec.reference_frame; cbn [Pandas.rows]. intros row Hrow.
    apply in_map_iff in Hrow. destruct Hrow as [r [<- Hr]].
    apply in_map. eapply Permutation_in; [symmetry; exact P|].
    rewrite <- (firstn_skipn 5 sorted). apply in_or_app; left; exact Hr.
  - reflexivity.
  - unfold Spec.reference_frame; cbn [Pandas.rows]. apply Permutation_map. exact P.
  - exists (map Spec.ref_mapped sorted). split.
    + apply PandasFacts.int_column_mapped.
    + apply D. exact S.
  - reflexivity.
  - reflexivity.
Qed.

Lemma top5_and_sorted_views_witness :
  exists v,
    Idxstats.chromosome_frames Spec.example_idxstats = Ok v /\
    Pandas.nrows (Idxstats.top_df v) = 5%nat /\
    Spec.int_column (Idxstats.top_df v) "Mapped"
    = Ok [910000; 730000; 500000; 500000; 300].
Proof.
  destruct (top5_and_sorted_views Spec.example_idxstats Observe.example_references)
    as [v (E & N & _)].
  - vm_compute. reflexivity.
  - vm_compute. lia.
  - split; vm_compute; reflexivity.
  - exists v. split; [exact E|]. split; [exact N|].
    vm_compute in E. injection E as <-. vm_compute. reflexivity.
Defined.

(** C8, as the spec words it, fails.  A report of five rows one of
    whose mapped counts has more than 64 bits is parsed, and line 71
    computes its coverage, but the column of counts is then one of
    Python integers and line 72 refuses it: no top five, the tab stops
    with [TypeError]. *)
Lemma wide_count_stops_top5 :
  Idxstats.chr_data Observe.wide_count_idxstats
  = Ok [ Spec.chr_record (str "chr1") 248956422 500000 1200;
         Spec.chr_record (str "chr2") 242193529 730000 0;
         Spec.chr_record (str "chr3") 198295559 500000 7;
         Spec.chr_record (str "big") 10 99999999999999999999 0;
         Spec.chr_record (str "chrX") 156040895 910000 15 ]
  /\ (exists d, Idxstats.with_coverage
                  (Pandas.DataFrame_of_records
                     [ Spec.chr_record (str "chr1") 248956422 500000 1200;
                       Spec.chr_record (str "chr2") 242193529 730000 0;
                       Spec.chr_record (str "chr3") 198295559 500000 7;
                       Spec.chr_record (str "big") 10 99999999999999999999 0;
                       Spec.chr_record (str "chrX") 156040895 910000 15 ])
                = Ok d /\ Pandas.nrows d = 5%nat)
  /\ Idxstats.chromosome_frames Observe.wide_count_idxstats
     = Raise (TypeError "Column 'Mapped' has dtype object, cannot use method 'nlargest' with this dtype")
  /\ snd (App.chromosomes_tab Observe.wide_count_idxstats [])
     = Raise (TypeError "Column 'Mapped' has dtype object, cannot use method 'nlargest' with this dtype").
Proof.
  split; [vm_compute; reflexivity|].
  split; [|split; vm_compute; reflexivity].
  eexists. split; [vm_compute; reflexivity | reflexivity].
Qed.

(** C3 fails on the code.  A per-reference report without rows gives a
    frame without columns, and line 71 raises [KeyError] when it reads
    the column Mapped: the tab stops after its first heading, and so
    does the run when the external tool prints no per-reference
    report.  The pie sub-tab has the guard this tab lacks: with
    nothing to draw it shows a warning. *)
Theorem empty_reference_report_raises :
  Idxstats.chromosome_frames [] = Raise (KeyError "Mapped")
  /\ App.chromosomes_tab [] []
     = ([App.Subheader "🧬 Chromosome Distribution"], Raise (KeyError "Mapped"))
  /\ snd (App.run Spec.failing_idxstats_tool (Some (str "upload.bam")))
     = Raise (KeyError "Mapped").
Proof. repeat split; vm_compute; reflexivity. Qed.

(** The tab ends as the computation of its three frames does. *)
Lemma chromosomes_tab_outcome (stats : pystr) (log : list App.event) :
  snd (App.chromosomes_tab stats log)
  = (v <- Idxstats.chromosome_frames stats ;; Ok tt).
Proof.
  unfold App.chromosomes_tab, Idxstats.chromosome_frames,
    App.bindM, App.emit, App.lift.
  destruct (Idxstats.chr_data stats) as [recs|e]; cbn [bind snd]; [|reflexivity].
  destruct (Idxstats.with_coverage _) as [d|e]; cbn [bind snd]; [|reflexivity].
  destruct (Pandas.nlargest d 5 "Mapped") as [t|e]; cbn [bind snd]; [|reflexivity].
  destruct (Pandas.sort_values_desc d "Mapped") as [s|e]; reflexivity.
Qed.

Lemma chromosomes_tab_without_rows (stats : pystr) (log : list App.event) :
  Idxstats.chr_data stats = Ok [] ->
  App.chromosomes_tab stats log
  = (log ++ [App.Subheader "🧬 Chromosome Distribution"], Raise (KeyError "Mapped")).
Proof.
  intros H. unfold App.chromosomes_tab, App.bindM, App.emit, App.lift.
  rewrite H. reflexivity.
Qed.

(** ** The run of the script *)

(** C6, as the code has it.  When building the index ends with a
    non-zero status the run stops there: the log holds the two
    headings, the notice and the one invocation of the tool, no report
    is asked for and no tab is rendered.  The exception is
    [CalledProcessError] with the command and the status; the streams
    of the tool were not captured, so it carries neither. *)
Theorem failed_index_aborts_request
        (tool : list pystr -> App.outcome) (bam_path : pystr) :
  App.exit_status (tool (App.index_cmd bam_path)) <> 0 ->
  App.run tool (Some bam_path)
  = ([ App.PageConfig "BAM File Quality Control" "wide";
       App.Title "🧬 BAMalyzer";
       App.Text "Upload a BAM file to visualize basic quality metrics.";
       App.FileUploader "📤 Upload BAM file";
       App.Info "🔧 Indexing BAM file...";
       App.Run (App.index_cmd bam_path) ],
     Raise (CalledProcessError (App.index_cmd bam_path)
                               (App.exit_status (tool (App.index_cmd bam_path)))
                               None None)).
Proof.
  intros H. apply Z.eqb_neq in H.
  unfold App.run, App.app, App.analyse, App.subprocess_run, App.bindM, App.emit.
  cbn. rewrite H. reflexivity.
Qed.

Lemma failed_index_aborts_request_witness :
  App.run Spec.unsorted_input_tool (Some (str "upload.bam"))
  = ([ App.PageConfig "BAM File Quality Control" "wide";
       App.Title "🧬 BAMalyzer";
       App.Text "Upload a BAM file to visualize basic quality metrics.";
       App.FileUploader "📤 Upload BAM file";
       App.Info "🔧 Indexing BAM file...";
       App.Run (App.index_cmd (str "upload.bam")) ],
     Raise (CalledProcessError
              (App.index_cmd (str "upload.bam"))
              (App.exit_status
                 (Spec.unsorted_input_tool (App.index_cmd (str "upload.bam"))))
              None None)).
Proof.
  apply (failed_index_aborts_request Spec.unsorted_input_tool (str "upload.bam")).
  vm_compute. discriminate.
Defined.

(** C6, as the spec words it, fails: the exception of the failed index
    build does not carry what the tool wrote. *)
Lemma failed_index_error_lacks_diagnostics :
  ~ exists log e,
      App.run Spec.unsorted_input_tool (Some (str "upload.bam")) = (log, Raise e) /\
      Spec.carries e (App.err_text
                        (Spec.unsorted_input_tool (App.index_cmd (str "upload.bam")))).
Proof.
  intros [log [e [H C]]]. vm_compute in H. injection H as <- <-.
  destruct C as [C|C]; discriminate C.
Qed.

(** C7.  An empty summary report: the mapping is empty and nothing is
    raised; the Statistics tab shows two empty columns and the raw
    text, the pie sub-tab its warning instead of a chart; a run whose
    summary report is empty and whose per-reference report has rows
    ends normally, with that warning in its log. *)
Theorem empty_summary_report (log : list App.event) :
  Flagstat.flagstat_data [] = Ok []
  /\ Flagstat.metrics [] = []
  /\ App.statistics_tab [] log
     = (log ++ [ App.Subheader "🧬 Comprehensive Alignment Statistics";
                 App.Columns 2; App.Markdown []; App.Markdown [];
                 App.Expander "View Raw Flagstats"; App.Code [] ],
        Ok tt)
  /\ App.pie_subtab [] log
     = (log ++ [ App.Warning "Could not generate pie chart." ], Ok tt)
  /\ snd (App.run Spec.empty_summary_tool (Some (str "upload.bam"))) = Ok tt
  /\ In (App.Warning "Could not generate pie chart.")
        (fst (App.run Spec.empty_summary_tool (Some (str "upload.bam")))).
Proof.
  split; [reflexivity|]. split; [reflexivity|]. split.
  { unfold App.statistics_tab, App.bindM, App.emit. cbn.
    rewrite <- !app_assoc. reflexivity. }
  split; [reflexivity|]. split.
  - vm_compute. reflexivity.
  - vm_compute. repeat first [ left; reflexivity | right ].
Qed.

(** ** The category mapper *)

Module MapperFacts.

Import PyStr Spec PyStrFacts Flagstat.

Lemma category_mapper_fold (items : list (pystr * Z)) (d : Dict.t Z)
      (acc : list pie_row) :
  fold_left
    (fun st kv => {| var_flagstat_data := var_flagstat_data st;
                     var_pie_data := pie_step (var_pie_data st) kv |})
    items {| var_flagstat_data := d; var_pie_data := acc |}
  = {| var_flagstat_data := d; var_pie_data := fold_left pie_step items acc |}.
Proof.
  revert acc; induction items as [|kv items IH]; intros acc; simpl;
    [reflexivity | apply IH].
Qed.

Lemma category_mapper_eq (s : pie_vars) :
  category_mapper s
  = {| var_flagstat_data := var_flagstat_data s;
       var_pie_data := pie_data (var_flagstat_data s) |}.
Proof. unfold category_mapper. cbn [var_flagstat_data]. apply category_mapper_fold. Qed.

(** Every row of the pie data is the first match of some key. *)
Lemma pie_rows_origin (items : list (pystr * Z)) (acc : list pie_row) (row : pie_row) :
  In row (fold_left pie_step items acc) ->
  In row acc \/
  exists kv, In kv items /\ first_label labels_map (fst kv) = Some (Category row).
Proof.
  revert acc; induction items as [|kv items IH]; intros acc; simpl; [tauto|].
  intros H. apply IH in H. destruct H as [H|[kv' [Hin Hl]]].
  - unfold pie_step in H.
    destruct (first_label labels_map (fst kv)) as [label|] eqn:E; [|tauto].
    apply in_app_or in H. destruct H as [H|[<-|[]]]; [tauto|].
    right. exists kv. split; [left; reflexivity | exact E].
  - right. exists kv'. split; [right; exact Hin | exact Hl].
Qed.

Lemma contains_mapped (pat k : pystr) :
  contains (str "mapped") pat = true ->
  contains (str "mapped") k = false -> contains pat k = false.
Proof.
  intros Hp Hk. destruct (contains pat k) eqn:E; [|reflexivity].
  rewrite (contains_trans _ _ _ Hp E) in Hk. discriminate Hk.
Qed.

(** The labels the first match can give: the three whose pattern holds
    the word "mapped" come after the pattern "mapped" and never win. *)
Lemma first_label_reachable (k : pystr) (label : string) :
  first_label labels_map k = Some label ->
  label <> "Both Mates Mapped"%string /\
  label <> "Mate Different Chr"%string /\
  label <> "Mate Diff Chr (MQ≥5)"%string.
Proof.
  unfold labels_map. cbn [first_label].
  repeat match goal with
  | |- (if contains ?p ?s then _ else _) = Some _ -> _ =>
      let E := fresh "E" in
      destruct (contains p s) eqn:E;
      [ let H := fresh "H" in
        intros H; injection H as <-;
        first [ repeat split; discriminate
              | exfalso;
                match goal with
                | M : contains (str "mapped") s = false |- _ =>
                    rewrite (contains_mapped p s eq_refl M) in E; discriminate E
                end ]
      | ]
  end.
  discriminate.
Qed.

Lemma lstrip_incl (c : ascii) (s : pystr) : In c (lstrip s) -> In c s.
Proof.
  induction s as [|a s IH]; simpl; [tauto|].
  destruct (isspace a); [right; apply IH; assumption | tauto].
Qed.

Lemma strip_incl (c : ascii) (s : pystr) : In c (strip s) -> In c s.
Proof.
  unfold strip, rstrip. intros H.
  apply lstrip_incl, in_rev, lstrip_incl, in_rev. exact H.
Qed.

Lemma lower_free_paren (s : pystr) :
  free_of "("%char s -> free_of "("%char (lower s).
Proof.
  unfold free_of, lower. intros H Hin. apply in_map_iff in Hin.
  destruct Hin as [c [Hc Hin]]. apply lower_char_paren in Hc. subst c. tauto.
Qed.

Lemma description_free_paren (s : pystr) :
  free_of "("%char (lower (strip (item (split "("%char s) 0))).
Proof.
  apply lower_free_paren. intros H. apply strip_incl in H.
  exact (split_head_free "("%char s H).
Qed.

Lemma dict_set_keys {V : Type} (d : Dict.t V) (k : pystr) (v : V) (k' : pystr) :
  In k' (Dict.keys (Dict.set d k v)) -> k' = k \/ In k' (Dict.keys d).
Proof.
  unfold Dict.keys. induction d as [|[k0 v0] d IH]; simpl.
  - intros [<-|[]]; tauto.
  - destruct (Dict.key_eqb k0 k); simpl; [tauto|].
    intros [<-|H]; [tauto|]. apply IH in H. tauto.
Qed.

Lemma flagstat_step_keys (d d' : Dict.t Z) (line : pystr) :
  flagstat_step d line = Ok d' ->
  Forall (free_of "("%char) (Dict.keys d) ->
  Forall (free_of "("%char) (Dict.keys d').
Proof.
  unfold flagstat_step.
  destruct (truthy (strip line)); [|congruence].
  destruct (List.length (split "+"%char line) =? 2)%nat; [|congruence].
  destruct (int _) as [n|]; cbn [bind]; [|discriminate].
  intros H Hd. injection H as <-. rewrite Forall_forall in *.
  intros k Hk. apply dict_set_keys in Hk. destruct Hk as [->|Hk];
    [apply description_free_paren | apply Hd; exact Hk].
Qed.

(** No key of the parsed mapping holds a '('. *)
Lemma flagstat_keys_free_paren (text : pystr) (d : Dict.t Z) :
  flagstat_data text = Ok d -> Forall (free_of "("%char) (Dict.keys d).
Proof.
  unfold flagstat_data, flagstat_lines.
  assert (G : forall lines d0, Forall (free_of "("%char) (Dict.keys d0) ->
              for_each flagstat_step lines d0 = Ok d ->
              Forall (free_of "("%char) (Dict.keys d)).
  { induction lines as [|l lines IH]; intros d0 H0; simpl.
    - intros H; injection H as <-; exact H0.
    - destruct (flagstat_step d0 l) as [d1|] eqn:E; cbn [bind]; [|discriminate].
      apply IH. eapply flagstat_step_keys; eassumption. }
  apply G. constructor.
Qed.

End MapperFacts.

(** C9.  Two executions of the mapper on the same summary give the same
    groupings, whatever [pie_data] held before; executing it again on
    its own result changes nothing, and the summary is left as it was. *)
Theorem category_mapper_repeatable (s1 s2 : Spec.pie_vars) :
  Spec.var_flagstat_data s1 = Spec.var_flagstat_data s2 ->
  Spec.var_pie_data (Spec.category_mapper s1)
  = Spec.var_pie_data (Spec.category_mapper s2)
  /\ Spec.category_mapper (Spec.category_mapper s1) = Spec.category_mapper s1
  /\ Spec.var_flagstat_data (Spec.category_mapper s1) = Spec.var_flagstat_data s1
  /\ Spec.var_pie_data (Spec.category_mapper s1)
     = Flagstat.pie_data (Spec.var_flagstat_data s1).
Proof.
  intros H. rewrite !MapperFacts.category_mapper_eq. cbn. rewrite H.
  repeat split.
Qed.

Lemma category_mapper_repeatable_witness :
  Spec.var_pie_data
    (Spec.category_mapper
       {| Spec.var_flagstat_data := [ (str "0 mapped", 900); (str "0 duplicates", 4) ];
          Spec.var_pie_data := [] |})
  = Spec.var_pie_data
      (Spec.category_mapper
         {| Spec.var_flagstat_data := [ (str "0 mapped", 900); (str "0 duplicates", 4) ];
            Spec.var_pie_data :=
              [ {| Flagstat.Category := "Singletons"; Flagstat.Count := 1 |} ] |}).
Proof.
  apply (category_mapper_repeatable
           {| Spec.var_flagstat_data := [ (str "0 mapped", 900); (str "0 duplicates", 4) ];
              Spec.var_pie_data := [] |}
           {| Spec.var_flagstat_data := [ (str "0 mapped", 900); (str "0 duplicates", 4) ];
              Spec.var_pie_data :=
                [ {| Flagstat.Category := "Singletons"; Flagstat.Count := 1 |} ] |}).
  reflexivity.
Defined.

(** C10.  Whatever the summary report, no row of the pie data has the
    category 'Both Mates Mapped', 'Mate Different Chr' or 'Mate Diff Chr
    (MQ≥5)': a key that holds one of their patterns holds "mapped",
    whose entry stands earlier in the table; and no key holds a '(', so
    the pattern ending in "(mapq>=5)" occurs in none. *)
Theorem unreachable_categories (text : pystr) (d : Dict.t Z) :
  Flagstat.flagstat_data text = Ok d ->
  (forall row, In row (Flagstat.pie_data d) ->
     Flagstat.Category row <> "Both Mates Mapped"%string /\
     Flagstat.Category row <> "Mate Different Chr"%string /\
     Flagstat.Category row <> "Mate Diff Chr (MQ≥5)"%string)
  /\ (forall k pat,
        In pat [ str "with itself and mate mapped";
                 str "with mate mapped to a different chr";
                 str "with mate mapped to a different chr (mapq>=5)" ] ->
        PyStr.contains pat k = true -> PyStr.contains (str "mapped") k = true)
  /\ (forall k, In k (Dict.keys d) ->
        Spec.free_of "("%char k /\
        PyStr.contains (str "with mate mapped to a different chr (mapq>=5)") k
        = false).
Proof.
  intros Hd. repeat apply conj.
  - intros row Hrow. apply MapperFacts.pie_rows_origin in Hrow.
    destruct Hrow as [[]|[kv [_ Hl]]].
    exact (MapperFacts.first_label_reachable _ _ Hl).
  - intros k pat Hpat Hk.
    apply (PyStrFacts.contains_trans (str "mapped") pat k); [|exact Hk].
    destruct Hpat as [<-|[<-|[<-|[]]]]; reflexivity.
  - intros k Hk.
    pose proof (MapperFacts.flagstat_keys_free_paren text d Hd) as F.
    rewrite Forall_forall in F. specialize (F k Hk). split; [exact F|].
    destruct (PyStr.contains _ k) eqn:E; [|reflexivity].
    apply PyStrFacts.contains_iff in E. destruct E as [l [r ->]].
    exfalso. apply F. apply in_or_app; right. apply in_or_app; left.
    cbn. tauto.
Qed.

Lemma unreachable_categories_witness :
  Flagstat.pie_data
    [ (str "0 with itself and mate mapped", 880);
      (str "0 with mate mapped to a different chr", 5) ]
  = [ {| Flagstat.Category := "Mapped Reads"; Flagstat.Count := 880 |};
      {| Flagstat.Category := "Mapped Reads"; Flagstat.Count := 5 |} ]
  /\ Forall (fun row =>
               Flagstat.Category row <> "Both Mates Mapped"%string /\
               Flagstat.Category row <> "Mate Different Chr"%string /\
               Flagstat.Category row <> "Mate Diff Chr (MQ≥5)"%string)
            (Flagstat.pie_data
               [ (str "0 with itself and mate mapped", 880);
                 (str "0 with mate mapped to a different chr", 5) ])
  /\ PyStr.contains (str "mapped") (str "0 with itself and mate mapped") = true
  /\ Spec.free_of "("%char (str "0 with mate mapped to a different chr").
Proof.
  destruct (unreachable_categories
              (PyStr.join [PyStr.LF]
                 [ str "880 + 0 with itself and mate mapped";
                   str "5 + 0 with mate mapped to a different chr";
                   str "5 + 0 with mate mapped to a different chr (mapQ>=5)" ])
              [ (str "0 with itself and mate mapped", 880);
                (str "0 with mate mapped to a different chr", 5) ])
    as (Hrows & Hpat & Hkeys).
  - vm_compute. reflexivity.
  - split; [vm_compute; reflexivity|].
    split; [apply Forall_forall; exact Hrows|]. split.
    + apply (Hpat (str "0 with itself and mate mapped")
                  (str "with itself and mate mapped"));
        [left; reflexivity | vm_compute; reflexivity].
    + apply (Hkeys (str "0 with mate mapped to a different chr")).
      right; left; reflexivity.
Defined.

(** ** Numbers that do not parse *)

Module MalformedFacts.

Import PyStr Spec PyStrFacts Flagstat Idxstats.

Lemma join_split (sep : ascii) (s : pystr) : join [sep] (split sep s) = s.
Proof.
  induction s as [|c s IH]; simpl; [reflexivity|].
  destruct (Ascii.eqb c sep) eqn:E.
  - apply Ascii.eqb_eq in E; subst c.
    destruct (split sep s) as [|p ps] eqn:Es; [destruct (split_not_nil sep s Es)|].
    change (sep :: join [sep] (p :: ps) = sep :: s). rewrite IH. reflexivity.
  - destruct (split sep s) as [|p ps] eqn:Es; [destruct (split_not_nil sep s Es)|].
    destruct ps as [|q ps].
    + change (c :: join [sep] [p] = c :: s). rewrite IH. reflexivity.
    + change (c :: join [sep] (p :: q :: ps) = c :: s). rewrite IH. reflexivity.
Qed.

Lemma split_two (sep : ascii) (s l r : pystr) :
  split sep s = [l; r] -> s = l ++ sep :: r.
Proof. intros H. rewrite <- (join_split sep s), H. reflexivity. Qed.

Lemma flagstat_step_value_error (d : Dict.t Z) (line : pystr) (e : exn) :
  flagstat_step d line = Raise e -> exists lit, e = ValueError lit.
Proof.
  unfold flagstat_step.
  destruct (truthy (strip line)); [|discriminate].
  destruct (List.length (split "+"%char line) =? 2)%nat; [|discriminate].
  destruct (int _) as [n|e'] eqn:E; cbn [bind]; [discriminate|].
  intros H; injection H as <-. eauto using int_raises_value_error.
Qed.

Lemma flagstat_step_raises (d : Dict.t Z) (line l r : pystr) :
  split "+"%char line = [l; r] -> raises (int (strip l)) ->
  raises (flagstat_step d line).
Proof.
  intros Hs [e He]. unfold flagstat_step.
  rewrite (truthy_strip line "+"%char);
    [| rewrite (split_two _ _ _ _ Hs); apply in_or_app; right; left; reflexivity
     | reflexivity].
  rewrite Hs. cbn [List.length Nat.eqb item nth]. rewrite He.
  exists e. reflexivity.
Qed.

Lemma chr_step_raises (acc : list Pandas.record) (line : pystr) :
  truthy (strip line) = true ->
  (3 <= List.length (split TAB line))%nat ->
  raises (int (item (split TAB line) 1)) \/
  raises (int (item (split TAB line) 2)) \/
  ((3 < List.length (split TAB line))%nat /\
   raises (int (item (split TAB line) 3))) ->
  raises (chr_step acc line).
Proof.
  intros Ht Hlen H. unfold chr_step. rewrite Ht.
  apply Nat.leb_le in Hlen. rewrite Hlen.
  destruct (int (item (split TAB line) 1)) as [l|e1] eqn:E1;
    [|exists e1; reflexivity].
  destruct (int (item (split TAB line) 2)) as [m|e2] eqn:E2;
    [|exists e2; reflexivity].
  destruct H as [[e H]|[[e H]|[Hlt [e H]]]]; try discriminate H.
  apply Nat.ltb_lt in Hlt. rewrite Hlt, H. exists e. reflexivity.
Qed.

End MalformedFacts.

(** X19.  A line of the summary report that splits
    into exactly two parts around '+' and whose left part [int] does not
    accept, and a line of the per-reference report that is not blank,
    has three fields or more and whose second, third or (when present)
    fourth field [int] does not accept, make the parsing of their report
    raise [ValueError], the exception the code has for a malformed
    number; the report yields no mapping or table, and the sub-tab or
    frame computation that asked for it ends with the same exception. *)
Theorem malformed_number_raises (text line : pystr) :
  In line (PyStr.splitlines text) ->
  (forall l r,
      PyStr.split "+"%char line = [l; r] ->
      raises (PyStr.int (PyStr.strip l)) ->
      exists lit,
        Flagstat.flagstat_data text = Raise (ValueError lit) /\
        forall log, App.pie_subtab text log = (log, Raise (ValueError lit)))
  /\ (PyStr.truthy (PyStr.strip line) = true ->
      (3 <= List.length (PyStr.split PyStr.TAB line))%nat ->
      raises (PyStr.int (PyStr.item (PyStr.split PyStr.TAB line) 1)) \/
      raises (PyStr.int (PyStr.item (PyStr.split PyStr.TAB line) 2)) \/
      ((3 < List.length (PyStr.split PyStr.TAB line))%nat /\
       raises (PyStr.int (PyStr.item (PyStr.split PyStr.TAB line) 3))) ->
      exists lit,
        Idxstats.chr_data text = Raise (ValueError lit) /\
        Idxstats.chromosome_frames text = Raise (ValueError lit)).
Proof.
  intros Hin. split.
  - intros l r Hs Hr.
    destruct (for_each_raises_at
                (fun e => exists lit, e = ValueError lit)
                Flagstat.flagstat_step line (PyStr.splitlines text)
                MalformedFacts.flagstat_step_value_error
                (fun d => MalformedFacts.flagstat_step_raises d line l r Hs Hr)
                Hin []) as [e [He [lit ->]]].
    exists lit. split; [exact He|].
    intros log. unfold App.pie_subtab, App.bindM, App.lift.
    unfold Flagstat.flagstat_data, Flagstat.flagstat_lines. rewrite He. reflexivity.
  - intros Ht Hlen H.
    destruct (for_each_raises_at
                (fun e => exists lit, e = ValueError lit)
                Idxstats.chr_step line (PyStr.splitlines text)
                IdxstatsFacts.chr_step_value_error
                (fun acc => MalformedFacts.chr_step_raises acc line Ht Hlen H)
                Hin []) as [e [He [lit ->]]].
    exists lit. split; [exact He|].
    unfold Idxstats.chromosome_frames, Idxstats.chr_data, Idxstats.chr_lines.
    rewrite He. reflexivity.
Qed.

Lemma malformed_number_raises_witness :
  (exists lit,
      Flagstat.flagstat_data
        (PyStr.join [PyStr.LF] [str "12 + 0 mapped"; str "abc + 0 total"])
      = Raise (ValueError lit) /\
      forall log,
        App.pie_subtab
          (PyStr.join [PyStr.LF] [str "12 + 0 mapped"; str "abc + 0 total"]) log
        = (log, Raise (ValueError lit)))
  /\ (exists lit,
        Idxstats.chr_data (Spec.tsv ["chr1"; "248956422"; "many"; "0"]%string)
        = Raise (ValueError lit) /\
        Idxstats.chromosome_frames (Spec.tsv ["chr1"; "248956422"; "many"; "0"]%string)
        = Raise (ValueError lit)).
Proof.
  split.
  - apply (proj1 (malformed_number_raises
                    (PyStr.join [PyStr.LF] [str "12 + 0 mapped"; str "abc + 0 total"])
                    (str "abc + 0 total")
                    ltac:(vm_compute; tauto))
                 (str "abc ") (str " 0 total")).
    + vm_compute. reflexivity.
    + exists (ValueError (str "abc")). vm_compute. reflexivity.
  - apply (proj2 (malformed_number_raises
                    (Spec.tsv ["chr1"; "248956422"; "many"; "0"]%string)
                    (Spec.tsv ["chr1"; "248956422"; "many"; "0"]%string)
                    ltac:(vm_compute; tauto))).
    + vm_compute. reflexivity.
    + vm_compute. lia.
    + right; left. exists (ValueError (str "many")). vm_compute. reflexivity.
Defined.

(** C2 fails on the code.  The summary line of the totals with a count
    that is no integer raises nothing: the line holds a second '+'
    inside its parentheses, splits into three parts and is passed over
    before its count is read, so the report parses to the empty mapping
    and the pie sub-tab goes on to its warning.  The same line without
    the parenthesised text has two parts and raises, as the claim
    says. *)
Theorem malformed_total_line_passed_over :
  PyStr.int (PyStr.strip (str "abc ")) = Raise (ValueError (str "abc"))
  /\ List.length
       (PyStr.split "+"%char
          (str "abc + 0 in total (QC-passed reads + QC-failed reads)")) = 3%nat
  /\ Flagstat.flagstat_data
       (str "abc + 0 in total (QC-passed reads + QC-failed reads)") = Ok []
  /\ App.pie_subtab
       (str "abc + 0 in total (QC-passed reads + QC-failed reads)") []
     = ([App.Warning "Could not generate pie chart."], Ok tt)
  /\ Flagstat.flagstat_data (str "abc + 0 in total")
     = Raise (ValueError (str "abc"))
  /\ App.pie_subtab (str "abc + 0 in total") []
     = ([], Raise (ValueError (str "abc"))).
Proof.
  split; [vm_compute; reflexivity|].
  split; [vm_compute; reflexivity|].
  split; [vm_compute; reflexivity|].
  split; [vm_compute; reflexivity|].
  split; vm_compute; reflexivity.
Qed.

(** * Further properties of the code *)

(** ** Dictionaries and loops *)

Module DictFacts.

Lemma key_eqb_eq (a b : pystr) : Dict.key_eqb a b = true <-> a = b.
Proof.
  revert b; induction a as [|x a IH]; intros [|y b]; simpl;
    try (split; [discriminate | discriminate]); [tauto|].
  rewrite andb_true_iff, Ascii.eqb_eq, IH. split.
  - intros [-> ->]; reflexivity.
  - intros H; injection H as -> ->; tauto.
Qed.

Lemma key_eqb_neq (a b : pystr) : Dict.key_eqb a b = false <-> a <> b.
Proof.
  rewrite <- key_eqb_eq. destruct (Dict.key_eqb a b); split; congruence.
Qed.

Section Set_.

Context {V : Type}.

Lemma set_holds (d : Dict.t V) (k : pystr) (v : V) : In (k, v) (Dict.set d k v).
Proof.
  induction d as [|[k0 v0] d IH]; simpl; [tauto|].
  destruct (Dict.key_eqb k0 k) eqn:E.
  - apply key_eqb_eq in E; subst k0. left; reflexivity.
  - right; exact IH.
Qed.

Lemma set_entries (d : Dict.t V) (k : pystr) (v : V) (k' : pystr) (v' : V) :
  In (k', v') (Dict.set d k v) -> (k' = k /\ v' = v) \/ In (k', v') d.
Proof.
  induction d as [|[k0 v0] d IH]; simpl.
  - intros [H|[]]; injection H as <- <-; tauto.
  - destruct (Dict.key_eqb k0 k) eqn:E; simpl.
    + apply key_eqb_eq in E; subst k0.
      intros [H|H]; [injection H as <- <-; tauto | tauto].
    + intros [H|H]; [tauto|]. apply IH in H. tauto.
Qed.

Lemma set_other (d : Dict.t V) (k : pystr) (v : V) (k' : pystr) (v' : V) :
  k' <> k -> (In (k', v') (Dict.set d k v) <-> In (k', v') d).
Proof.
  intros Hne; induction d as [|[k0 v0] d IH]; simpl.
  - split; [intros [H|[]]; injection H as <- <-; congruence | tauto].
  - destruct (Dict.key_eqb k0 k) eqn:E; simpl.
    + apply key_eqb_eq in E; subst k0. split.
      * intros [H|H]; [injection H as <- <-; congruence | tauto].
      * intros [H|H]; [injection H as <- <-; congruence | tauto].
    + rewrite IH. tauto.
Qed.

Lemma set_keys_present (d : Dict.t V) (k : pystr) (v : V) :
  In k (Dict.keys d) -> Dict.keys (Dict.set d k v) = Dict.keys d.
Proof.
  unfold Dict.keys; induction d as [|[k0 v0] d IH]; simpl; [tauto|].
  destruct (Dict.key_eqb k0 k) eqn:E; simpl.
  - reflexivity.
  - apply key_eqb_neq in E. intros [H|H]; [congruence|].
    rewrite IH by exact H. reflexivity.
Qed.

Lemma set_keys_absent (d : Dict.t V) (k : pystr) (v : V) :
  ~ In k (Dict.keys d) -> Dict.keys (Dict.set d k v) = Dict.keys d ++ [k].
Proof.
  unfold Dict.keys; induction d as [|[k0 v0] d IH]; simpl; [reflexivity|].
  intros H. destruct (Dict.key_eqb k0 k) eqn:E; simpl.
  - apply key_eqb_eq in E; subst k0. tauto.
  - rewrite IH by tauto. reflexivity.
Qed.

Lemma key_in_dec (k : pystr) (d : Dict.t V) :
  In k (Dict.keys d) \/ ~ In k (Dict.keys d).
Proof.
  destruct (in_dec (list_eq_dec ascii_dec) k (Dict.keys d)); tauto.
Qed.

Lemma set_nodup (d : Dict.t V) (k : pystr) (v : V) :
  NoDup (Dict.keys d) -> NoDup (Dict.keys (Dict.set d k v)).
Proof.
  intros H. destruct (key_in_dec k d) as [Hin|Hout].
  - rewrite set_keys_present by exact Hin. exact H.
  - rewrite set_keys_absent by exact Hout.
    apply NoDup_app; [exact H | repeat constructor; tauto |].
    intros x Hx [<-|[]]. tauto.
Qed.

(** With distinct keys, the value read back under [k] is the one set. *)
Lemma set_reads_back (d : Dict.t V) (k : pystr) (v v' : V) :
  NoDup (Dict.keys d) -> In (k, v') (Dict.set d k v) -> v' = v.
Proof.
  unfold Dict.keys; induction d as [|[k0 v0] d IH]; simpl.
  - intros _ [H|[]]. injection H as <-. reflexivity.
  - intros Hn. inversion Hn as [|? ? Hk Hd]; subst.
    destruct (Dict.key_eqb k0 k) eqn:E; simpl.
    + apply key_eqb_eq in E; subst k0.
      intros [H|H]; [injection H as <-; reflexivity|].
      exfalso. apply Hk. apply (in_map fst) in H. exact H.
    + apply key_eqb_neq in E.
      intros [H|H]; [injection H as -> _; congruence|].
      apply IH; assumption.
Qed.

End Set_.

End DictFacts.

Lemma for_each_invariant {A S : Type} (P : S -> Prop)
      (body : S -> A -> result S) (xs : list A) :
  (forall s x s', In x xs -> P s -> body s x = Ok s' -> P s') ->
  forall s s', P s -> for_each body xs s = Ok s' -> P s'.
Proof.
  induction xs as [|x xs IH]; intros Hb s s' Hs; simpl.
  - intros H; injection H as <-; exact Hs.
  - destruct (body s x) as [s1|e] eqn:E; cbn [bind]; [|discriminate].
    apply IH.
    + intros t y t' Hy; apply Hb; right; exact Hy.
    + eapply Hb; [left; reflexivity | exact Hs | exact E].
Qed.

(** ** More on the summary report *)

Module SummaryFacts.

Import PyStr Spec PyStrFacts Flagstat Observe.

(** What one turn of the loop of lines 92-98 does to the mapping. *)
Lemma flagstat_step_cases (d d' : Dict.t Z) (line : pystr) :
  flagstat_step d line = Ok d' ->
  d' = d \/
  exists l r n,
    split "+"%char line = [l; r] /\ int (strip l) = Ok n /\
    d' = Dict.set d (description_key r) n.
Proof.
  unfold flagstat_step.
  destruct (truthy (strip line)); [|intros H; injection H as <-; tauto].
  destruct (split "+"%char line) as [|l [|r [|x parts]]] eqn:Es;
    cbn [List.length Nat.eqb]; try (intros H; injection H as <-; tauto).
  cbn [item nth].
  destruct (int (strip l)) as [n|] eqn:En; cbn [bind]; [|discriminate].
  intros H; injection H as <-. right. exists l, r, n. tauto.
Qed.

Lemma flagstat_step_parsed (d : Dict.t Z) (line l r : pystr) (n : Z) :
  split "+"%char line = [l; r] -> int (strip l) = Ok n ->
  flagstat_step d line = Ok (Dict.set d (description_key r) n).
Proof.
  intros Hs Hn. unfold flagstat_step.
  rewrite (truthy_strip line "+"%char);
    [| rewrite (MalformedFacts.split_two _ _ _ _ Hs);
       apply in_or_app; right; left; reflexivity
     | reflexivity].
  rewrite Hs. cbn [List.length Nat.eqb item nth]. rewrite Hn. reflexivity.
Qed.

Lemma flagstat_lines_nodup (lines : list pystr) (d : Dict.t Z) :
  flagstat_lines lines = Ok d -> NoDup (Dict.keys d).
Proof.
  apply (for_each_invariant (fun d => NoDup (Dict.keys d))).
  - intros s x s' _ Hs H. apply flagstat_step_cases in H.
    destruct H as [->|(l & r & n & _ & _ & ->)];
      [exact Hs | apply DictFacts.set_nodup; exact Hs].
  - constructor.
Qed.

Lemma blank_step (line : pystr) : blank line ->
  (forall acc, metrics_step acc line = acc) /\
  (forall d, flagstat_step d line = Ok d) /\
  (forall acc, Idxstats.chr_step acc line = Ok acc).
Proof.
  intros H. unfold metrics_step, flagstat_step, Idxstats.chr_step.
  rewrite (truthy_strip_blank line H). repeat split.
Qed.

Lemma lower_char_idem (c : ascii) : lower_char (lower_char c) = lower_char c.
Proof. each_ascii c; reflexivity. Qed.

Lemma lower_idem (s : pystr) : lower (lower s) = lower s.
Proof.
  unfold lower. rewrite map_map. apply map_ext. intros c; apply lower_char_idem.
Qed.

Lemma flagstat_entry_origin (flagstat_text : pystr) (d : Dict.t Z)
      (k : pystr) (v : Z) :
  flagstat_data flagstat_text = Ok d -> In (k, v) d ->
  exists line l r,
    In line (splitlines flagstat_text) /\
    split "+"%char line = [l; r] /\
    k = description_key r /\
    int (strip l) = Ok v.
Proof.
  intros Hd Hin.
  set (Q := fun kv : pystr * Z =>
              exists line l r,
                In line (splitlines flagstat_text) /\
                split "+"%char line = [l; r] /\
                fst kv = description_key r /\
                int (strip l) = Ok (snd kv)).
  assert (F : Forall Q d).
  { apply (for_each_invariant (fun d => Forall Q d) flagstat_step
                              (splitlines flagstat_text)) with (s := []);
      [| constructor | exact Hd].
    intros s x s' Hx Hs H. apply flagstat_step_cases in H.
    destruct H as [->|(l & r & n & Hsp & Hn & ->)]; [exact Hs|].
    apply Forall_forall. intros [k' v'] Hkv.
    apply DictFacts.set_entries in Hkv. destruct Hkv as [[-> ->]|Hkv].
    - exists x, l, r. tauto.
    - rewrite Forall_forall in Hs. exact (Hs _ Hkv). }
  rewrite Forall_forall in F. exact (F (k, v) Hin).
Qed.

End SummaryFacts.

(** X1.  The two columns of the Statistics tab hold all metric lines,
    each once and in order: the left column the first half, the right
    column the rest, which is as long as the left or longer by one. *)
Theorem statistics_columns_partition (flagstat_text : pystr) (log : list App.event) :
  exists left right,
    App.statistics_tab flagstat_text log
    = (log ++ [ App.Subheader "🧬 Comprehensive Alignment Statistics";
                App.Columns 2;
                App.Markdown (PyStr.join [PyStr.LF; PyStr.LF] left);
                App.Markdown (PyStr.join [PyStr.LF; PyStr.LF] right);
                App.Expander "View Raw Flagstats";
                App.Code flagstat_text ],
       Ok tt) /\
    left ++ right = Flagstat.metrics flagstat_text /\
    (List.length left <= List.length right <= List.length left + 1)%nat.
Proof.
  set (half := Nat.div (List.length (Flagstat.metrics flagstat_text)) 2).
  exists (firstn half (Flagstat.metrics flagstat_text)),
         (skipn half (Flagstat.metrics flagstat_text)).
  split; [|split].
  - unfold App.statistics_tab, App.bindM, App.emit. cbn.
    rewrite <- !app_assoc. reflexivity.
  - apply firstn_skipn.
  - rewrite length_firstn, length_skipn. unfold half.
    pose proof (Nat.div_mod_eq (List.length (Flagstat.metrics flagstat_text)) 2).
    pose proof (Nat.mod_upper_bound
                  (List.length (Flagstat.metrics flagstat_text)) 2).
    lia.
Qed.

(** X2.  The mapping parsed from a summary report holds every
    description at most once. *)
Theorem summary_keys_distinct (flagstat_text : pystr) (d : Dict.t Z) :
  Flagstat.flagstat_data flagstat_text = Ok d -> NoDup (Dict.keys d).
Proof. apply SummaryFacts.flagstat_lines_nodup. Qed.

Lemma summary_keys_distinct_witness :
  NoDup (Dict.keys [ (str "0 mapped", 7); (str "0 duplicates", 2) ]).
Proof.
  apply (summary_keys_distinct
           (PyStr.join [PyStr.LF]
              [ str "5 + 0 mapped"; str "2 + 0 duplicates"; str "7 + 0 mapped" ])).
  vm_compute. reflexivity.
Defined.

(** X3.  A further line with a description met before replaces the
    count under that description and leaves it at its place; a line
    with a new description is added at the end.  In both cases the
    count read back is the one of the last line, and the other entries
    are as they were. *)
Theorem repeated_description_overwrites
        (lines : list pystr) (line l r : pystr) (d : Dict.t Z) (n : Z) :
  Flagstat.flagstat_lines lines = Ok d ->
  PyStr.split "+"%char line = [l; r] ->
  PyStr.int (PyStr.strip l) = Ok n ->
  Flagstat.flagstat_lines (lines ++ [line])
  = Ok (Dict.set d (Observe.description_key r) n)
  /\ In (Observe.description_key r, n) (Dict.set d (Observe.description_key r) n)
  /\ (forall n', In (Observe.description_key r, n')
                    (Dict.set d (Observe.description_key r) n) -> n' = n)
  /\ (In (Observe.description_key r) (Dict.keys d) ->
      Dict.keys (Dict.set d (Observe.description_key r) n) = Dict.keys d)
  /\ (~ In (Observe.description_key r) (Dict.keys d) ->
      Dict.keys (Dict.set d (Observe.description_key r) n)
      = Dict.keys d ++ [Observe.description_key r])
  /\ (forall k v, k <> Observe.description_key r ->
        (In (k, v) (Dict.set d (Observe.description_key r) n) <-> In (k, v) d)).
Proof.
  intros Hd Hs Hn. repeat apply conj.
  - unfold Flagstat.flagstat_lines in *. rewrite for_each_app, Hd. cbn [bind for_each].
    rewrite (SummaryFacts.flagstat_step_parsed d line l r n Hs Hn). reflexivity.
  - apply DictFacts.set_holds.
  - intros n'. apply DictFacts.set_reads_back.
    eapply SummaryFacts.flagstat_lines_nodup; exact Hd.
  - apply DictFacts.set_keys_present.
  - apply DictFacts.set_keys_absent.
  - intros k v. apply DictFacts.set_other.
Qed.

Lemma repeated_description_overwrites_witness :
  Flagstat.flagstat_lines
    ([ str "5 + 0 mapped"; str "2 + 0 duplicates" ] ++ [ str "7 + 0 mapped" ])
  = Ok [ (str "0 mapped", 7); (str "0 duplicates", 2) ].
Proof.
  apply (repeated_description_overwrites
           [ str "5 + 0 mapped"; str "2 + 0 duplicates" ]
           (str "7 + 0 mapped") (str "7 ") (str " 0 mapped")
           [ (str "0 mapped", 5); (str "0 duplicates", 2) ] 7);
    vm_compute; reflexivity.
Defined.

(** X4.  Every entry of the parsed mapping comes from a line of the
    report: a line with exactly two parts around '+', whose left part
    is the count and whose right part gives the description. *)
Theorem summary_entry_origin (flagstat_text : pystr) (d : Dict.t Z)
        (k : pystr) (v : Z) :
  Flagstat.flagstat_data flagstat_text = Ok d -> In (k, v) d ->
  exists line l r,
    In line (PyStr.splitlines flagstat_text) /\
    PyStr.split "+"%char line = [l; r] /\
    k = Observe.description_key r /\
    PyStr.int (PyStr.strip l) = Ok v.
Proof. apply SummaryFacts.flagstat_entry_origin. Qed.

Lemma summary_entry_origin_witness :
  exists line l r,
    In line (PyStr.splitlines
               (PyStr.join [PyStr.LF] [ str "5 + 0 mapped"; str "2 + 0 duplicates" ])) /\
    PyStr.split "+"%char line = [l; r] /\
    str "0 duplicates" = Observe.description_key r /\
    PyStr.int (PyStr.strip l) = Ok 2.
Proof.
  apply (summary_entry_origin
           (PyStr.join [PyStr.LF] [ str "5 + 0 mapped"; str "2 + 0 duplicates" ])
           [ (str "0 mapped", 5); (str "0 duplicates", 2) ]).
  - vm_compute. reflexivity.
  - right; left; reflexivity.
Defined.

(** X5.  The descriptions of the parsed mapping are in lower case, so
    the patterns of the label table, all in lower case, match them
    whatever the case of the report. *)
Theorem summary_keys_lower_case (flagstat_text : pystr) (d : Dict.t Z) :
  Flagstat.flagstat_data flagstat_text = Ok d ->
  Forall (fun k => PyStr.lower k = k) (Dict.keys d)
  /\ Forall (fun pat => PyStr.lower pat = pat) Observe.patterns.
Proof.
  intros Hd. split; [|repeat constructor].
  apply Forall_forall. intros k Hk. unfold Dict.keys in Hk.
  apply in_map_iff in Hk. destruct Hk as [[k' v] [<- Hin]].
  destruct (SummaryFacts.flagstat_entry_origin flagstat_text d k' v Hd Hin)
    as (_ & _ & r & _ & _ & -> & _).
  apply SummaryFacts.lower_idem.
Qed.

Lemma summary_keys_lower_case_witness :
  Forall (fun k => PyStr.lower k = k) (Dict.keys [ (str "0 mapped", 5) ])
  /\ Forall (fun pat => PyStr.lower pat = pat) Observe.patterns.
Proof.
  apply (summary_keys_lower_case (str "5 + 0 MAPPED (100.00% : N/A)")).
  vm_compute. reflexivity.
Defined.

(** ** Lines of a report *)

Module LineFacts.

Import PyStr Spec PyStrFacts.

Lemma splitlines_from_line (acc l rest : pystr) :
  one_line l ->
  splitlines_from acc (l ++ LF :: rest) = (rev acc ++ l) :: splitlines_from [] rest.
Proof.
  intros H; revert acc; induction H as [|c l Hc Hl IH]; intros acc.
  - cbn. rewrite app_nil_r. reflexivity.
  - cbn [app splitlines_from]. rewrite Hc, IH. cbn [rev].
    rewrite <- app_assoc. reflexivity.
Qed.

(** The lines of a text put together with '\n' are the lines it was
    made of, but for an empty last line. *)
Lemma splitlines_join (lines : list pystr) :
  Forall one_line lines ->
  exists tail, lines = splitlines (join [LF] lines) ++ tail /\
               (tail = [] \/ tail = [[]]).
Proof.
  induction 1 as [|l lines Hl Hs IH].
  - exists []. split; [reflexivity | tauto].
  - destruct lines as [|l2 lines].
    + cbn [join]. unfold splitlines. rewrite splitlines_from_one_line by exact Hl.
      cbn [rev app]. destruct l as [|c l].
      * exists [[]]. split; [reflexivity | tauto].
      * exists []. split; [reflexivity | tauto].
    + destruct IH as [tail [E T]]. exists tail. split; [|exact T].
      change (join [LF] (l :: l2 :: lines))
        with (l ++ LF :: join [LF] (l2 :: lines)).
      unfold splitlines in *. rewrite splitlines_from_line by exact Hl.
      cbn [rev app]. rewrite <- E. reflexivity.
Qed.

Lemma for_each_join {S : Type} (body : S -> pystr -> result S) (lines : list pystr) :
  (forall s, body s [] = Ok s) -> Forall one_line lines ->
  forall s, for_each body (splitlines (join [LF] lines)) s = for_each body lines s.
Proof.
  intros Hb Hl s. destruct (splitlines_join lines Hl) as [tail [E T]].
  rewrite E at 2. rewrite for_each_app.
  destruct (for_each body (splitlines (join [LF] lines)) s) as [s'|e];
    cbn [bind]; [|reflexivity].
  destruct T as [->| ->]; cbn [for_each]; [reflexivity|].
  rewrite Hb. reflexivity.
Qed.

Lemma fold_left_join {S : Type} (body : S -> pystr -> S) (lines : list pystr) :
  (forall s, body s [] = s) -> Forall one_line lines ->
  forall s, fold_left body (splitlines (join [LF] lines)) s = fold_left body lines s.
Proof.
  intros Hb Hl s. destruct (splitlines_join lines Hl) as [tail [E T]].
  rewrite E at 2. rewrite fold_left_app.
  destruct T as [->| ->]; cbn [fold_left]; [reflexivity|].
  rewrite Hb. reflexivity.
Qed.

Lemma split_join (sep : ascii) (parts : list pystr) :
  parts <> [] -> Forall (free_of sep) parts ->
  split sep (join [sep] parts) = parts.
Proof.
  intros Hne H; induction H as [|p parts Hp Hs IH]; [contradiction|].
  destruct parts as [|q parts].
  - cbn [join]. apply split_free; exact Hp.
  - change (join [sep] (p :: q :: parts))
      with (p ++ sep :: join [sep] (q :: parts)).
    rewrite split_app by exact Hp. rewrite IH by discriminate. reflexivity.
Qed.

Lemma strongly_sorted_app {A : Type} (R : A -> A -> Prop) (l1 l2 : list A) :
  StronglySorted R (l1 ++ l2) ->
  forall a b, In a l1 -> In b l2 -> R a b.
Proof.
  induction l1 as [|x l1 IH]; cbn [app]; intros H a b Ha Hb; [destruct Ha|].
  inversion H as [|? ? Hs Hx]; subst. destruct Ha as [<-|Ha].
  - rewrite Forall_forall in Hx. apply Hx. apply in_or_app; right; exact Hb.
  - eapply IH; eassumption.
Qed.

End LineFacts.

(** X6.  A line of white space only changes nothing in any of the three
    loops: taking it out of a report leaves the metric lines, the
    mapping and the table as they were, errors included. *)
Theorem blank_lines_are_skipped (before after : list pystr) (line : pystr) :
  Spec.blank line ->
  fold_left Flagstat.metrics_step (before ++ line :: after) []
  = fold_left Flagstat.metrics_step (before ++ after) []
  /\ Flagstat.flagstat_lines (before ++ line :: after)
     = Flagstat.flagstat_lines (before ++ after)
  /\ Idxstats.chr_lines (before ++ line :: after)
     = Idxstats.chr_lines (before ++ after).
Proof.
  intros H. destruct (SummaryFacts.blank_step line H) as (Hm & Hf & Hc).
  repeat apply conj.
  - rewrite !fold_left_app. cbn [fold_left]. rewrite Hm. reflexivity.
  - unfold Flagstat.flagstat_lines. rewrite !for_each_app.
    destruct (for_each Flagstat.flagstat_step before []) as [d|e];
      cbn [bind for_each]; [|reflexivity].
    rewrite Hf. reflexivity.
  - unfold Idxstats.chr_lines. rewrite !for_each_app.
    destruct (for_each Idxstats.chr_step before []) as [d|e];
      cbn [bind for_each]; [|reflexivity].
    rewrite Hc. reflexivity.
Qed.

Lemma blank_lines_are_skipped_witness :
  fold_left Flagstat.metrics_step
            ([str "5 + 0 mapped"] ++ str "   " :: [str "2 + 0 duplicates"]) []
  = fold_left Flagstat.metrics_step
              ([str "5 + 0 mapped"] ++ [str "2 + 0 duplicates"]) []
  /\ Flagstat.flagstat_lines
       ([str "5 + 0 mapped"] ++ str "   " :: [str "2 + 0 duplicates"])
     = Flagstat.flagstat_lines ([str "5 + 0 mapped"] ++ [str "2 + 0 duplicates"])
  /\ Idxstats.chr_lines
       ([str "5 + 0 mapped"] ++ str "   " :: [str "2 + 0 duplicates"])
     = Idxstats.chr_lines ([str "5 + 0 mapped"] ++ [str "2 + 0 duplicates"]).
Proof.
  apply (blank_lines_are_skipped [str "5 + 0 mapped"] [str "2 + 0 duplicates"]
                                 (str "   ")).
  repeat constructor.
Defined.

(** X7.  A report is read line by line: for lines put together with
    '\n', with or without a line break at the end, the metric lines, the
    mapping and the table are those the loops build from the lines one
    after the other. *)
Theorem reports_are_read_line_by_line (lines : list pystr) :
  Forall Spec.one_line lines ->
  Flagstat.metrics (PyStr.join [PyStr.LF] lines)
  = fold_left Flagstat.metrics_step lines []
  /\ Flagstat.flagstat_data (PyStr.join [PyStr.LF] lines)
     = Flagstat.flagstat_lines lines
  /\ Idxstats.chr_data (PyStr.join [PyStr.LF] lines)
     = Idxstats.chr_lines lines
  /\ Flagstat.flagstat_data (PyStr.join [PyStr.LF] (lines ++ [[]]))
     = Flagstat.flagstat_lines lines
  /\ Idxstats.chr_data (PyStr.join [PyStr.LF] (lines ++ [[]]))
     = Idxstats.chr_lines lines.
Proof.
  intros H.
  assert (B := SummaryFacts.blank_step [] (Forall_nil _)).
  destruct B as (Bm & Bf & Bc).
  assert (H' : Forall Spec.one_line (lines ++ [[]])).
  { apply Forall_app; split; [exact H | repeat constructor]. }
  repeat apply conj.
  - apply (LineFacts.fold_left_join Flagstat.metrics_step lines Bm H).
  - apply (LineFacts.for_each_join Flagstat.flagstat_step lines Bf H).
  - apply (LineFacts.for_each_join Idxstats.chr_step lines Bc H).
  - unfold Flagstat.flagstat_data, Flagstat.flagstat_lines.
    rewrite (LineFacts.for_each_join Flagstat.flagstat_step _ Bf H').
    rewrite for_each_app.
    destruct (for_each Flagstat.flagstat_step lines []); cbn [bind for_each];
      [rewrite Bf|]; reflexivity.
  - unfold Idxstats.chr_data, Idxstats.chr_lines.
    rewrite (LineFacts.for_each_join Idxstats.chr_step _ Bc H').
    rewrite for_each_app.
    destruct (for_each Idxstats.chr_step lines []); cbn [bind for_each];
      [rewrite Bc|]; reflexivity.
Qed.

Lemma reports_are_read_line_by_line_witness :
  Idxstats.chr_data
    (PyStr.join [PyStr.LF]
       [ Spec.tsv ["chr1"; "10"; "4"]%string; Spec.tsv ["chr2"; "12"; "6"; "1"]%string ])
  = Idxstats.chr_lines
      [ Spec.tsv ["chr1"; "10"; "4"]%string; Spec.tsv ["chr2"; "12"; "6"; "1"]%string ].
Proof.
  apply (reports_are_read_line_by_line
           [ Spec.tsv ["chr1"; "10"; "4"]%string;
             Spec.tsv ["chr2"; "12"; "6"; "1"]%string ]).
  repeat constructor.
Defined.

(** X8.  Of a per-reference line only the first four fields count:
    whatever fields follow the fourth, the record is the one of the
    first four. *)
Theorem fields_after_the_fourth_are_ignored
        (acc : list Pandas.record) (name len_txt map_txt un_txt : pystr)
        (more : list pystr) (l m u : Z) :
  Forall (Spec.free_of PyStr.TAB) (name :: len_txt :: map_txt :: un_txt :: more) ->
  PyStr.int len_txt = Ok l -> PyStr.int map_txt = Ok m -> PyStr.int un_txt = Ok u ->
  Idxstats.chr_step
    acc (PyStr.join [PyStr.TAB] (name :: len_txt :: map_txt :: un_txt :: more))
  = Ok (acc ++ [ Spec.chr_record name l m u ]).
Proof.
  intros F Hl Hm Hu.
  assert (Es := LineFacts.split_join
                  PyStr.TAB (name :: len_txt :: map_txt :: un_txt :: more)
                  ltac:(discriminate) F).
  unfold Idxstats.chr_step.
  destruct (PyStrMore.int_ok_not_blank _ _ Hl) as [c [Hin Hc]].
  rewrite (PyStrFacts.truthy_strip _ c);
    [| apply (PyStrMore.split_part_incl PyStr.TAB c _ 1); rewrite Es; exact Hin
     | exact Hc].
  rewrite Es. cbn [List.length PyStr.item nth Nat.leb Nat.ltb].
  rewrite Hl, Hm, Hu. reflexivity.
Qed.

Lemma fields_after_the_fourth_are_ignored_witness :
  Idxstats.chr_step
    [] (PyStr.join [PyStr.TAB]
          [ str "chr1"; str "248956422"; str "500000"; str "1200"; str "n/a"; str "" ])
  = Ok ([] ++ [ Spec.chr_record (str "chr1") 248956422 500000 1200 ]).
Proof.
  apply (fields_after_the_fourth_are_ignored
           [] (str "chr1") (str "248956422") (str "500000") (str "1200")
           [ str "n/a"; str "" ]).
  - repeat constructor; unfold Spec.free_of; cbn; intuition discriminate.
  - vm_compute; reflexivity.
  - vm_compute; reflexivity.
  - vm_compute; reflexivity.
Defined.

(** ** More on the frames of the Chromosomes tab *)

Module FrameFacts.

Import PyStr Pandas Spec Idxstats Observe.

(** When the three frames exist they are the frames of a non-empty list
    of parsed rows. *)
Lemma chromosome_frames_ok (stats : pystr) (v : chromosome_views) :
  chromosome_frames stats = Ok v ->
  exists refs sorted,
    refs <> [] /\ Permutation refs sorted /\ by_mapped_desc sorted /\
    chr_data stats = Ok (map record_of refs) /\
    v = {| df := reference_frame refs;
           top_df := reference_frame (firstn 5 sorted);
           all_sorted := reference_frame sorted |}.
Proof.
  intros Hv.
  destruct (chr_data stats) as [recs|e] eqn:Hd;
    [| unfold chromosome_frames in Hv; rewrite Hd in Hv; discriminate Hv].
  destruct (IdxstatsFacts.chr_data_shape stats recs Hd) as [refs ->].
  destruct refs as [|r refs];
    [unfold chromosome_frames in Hv; rewrite Hd in Hv; discriminate Hv|].
  destruct (IdxstatsFacts.chromosome_frames_returned stats (r :: refs) v Hd)
    as [sorted [P [S E]]]; [discriminate | exact Hv |].
  exists (r :: refs), sorted. repeat split; try assumption. discriminate.
Qed.

Lemma frame_rows_width (refs : list reference) :
  Forall (fun row => List.length row = 5%nat) (rows (reference_frame refs)).
Proof.
  unfold reference_frame; cbn [rows]. apply Forall_map.
  apply Forall_forall. intros r _. reflexivity.
Qed.

End FrameFacts.

(** X9.  Whenever the frames of the Chromosomes tab exist, the report
    had at least one row; the sorted frame has as many rows as the
    frame, the top frame five of them or all when there are fewer, and
    then it holds the rows of the frame, each as often, in some order;
    all three have the same five columns and five cells in every
    row. *)
Theorem chromosome_frames_shape (stats : pystr) (v : Idxstats.chromosome_views) :
  Idxstats.chromosome_frames stats = Ok v ->
  (1 <= Pandas.nrows (Idxstats.df v))%nat
  /\ Pandas.nrows (Idxstats.all_sorted v) = Pandas.nrows (Idxstats.df v)
  /\ Pandas.nrows (Idxstats.top_df v) = Nat.min 5 (Pandas.nrows (Idxstats.df v))
  /\ ((Pandas.nrows (Idxstats.df v) <= 5)%nat ->
      Permutation (Pandas.rows (Idxstats.df v)) (Pandas.rows (Idxstats.top_df v)))
  /\ Forall (fun frame =>
               Pandas.columns frame = Observe.frame_columns /\
               Forall (fun row => List.length row = 5%nat) (Pandas.rows frame))
            [ Idxstats.df v; Idxstats.top_df v; Idxstats.all_sorted v ].
Proof.
  intros Hv.
  destruct (FrameFacts.chromosome_frames_ok stats v Hv)
    as (refs & sorted & Hne & P & _ & _ & ->).
  cbn [Idxstats.df Idxstats.top_df Idxstats.all_sorted].
  unfold Pandas.nrows, Spec.reference_frame; cbn [Pandas.rows].
  rewrite !length_map, length_firstn, <- (Permutation_length P).
  repeat apply conj.
  - destruct refs; [contradiction | cbn; lia].
  - reflexivity.
  - reflexivity.
  - intros H. rewrite firstn_all2 by (rewrite <- (Permutation_length P); exact H).
    apply Permutation_map. exact P.
  - repeat constructor; apply FrameFacts.frame_rows_width.
Qed.

Lemma chromosome_frames_shape_witness :
  exists v,
    Idxstats.chromosome_frames
      (PyStr.join [PyStr.LF] [ Spec.tsv ["chrM"; "16569"; "300"]%string;
                               Spec.tsv ["chr2"; "0"; "700"; "3"]%string ])
    = Ok v /\
    Pandas.nrows (Idxstats.top_df v) = Nat.min 5 (Pandas.nrows (Idxstats.df v)) /\
    Permutation (Pandas.rows (Idxstats.df v)) (Pandas.rows (Idxstats.top_df v)).
Proof.
  eexists. split; [vm_compute; reflexivity|].
  match goal with
  | |- Pandas.nrows (Idxstats.top_df ?v) = _ /\ _ =>
      destruct (chromosome_frames_shape
                  (PyStr.join [PyStr.LF] [ Spec.tsv ["chrM"; "16569"; "300"]%string;
                                           Spec.tsv ["chr2"; "0"; "700"; "3"]%string ])
                  v ltac:(vm_compute; reflexivity))
        as (_ & _ & Hmin & Hsame & _)
  end.
  split; [exact Hmin|]. apply Hsame. vm_compute. lia.
Defined.

(** X10.  The rows of the top frame are the rows with the largest
    mapped counts: its counts are the first five of the descending
    counts of the whole table, and none of them is below a count left
    out. *)
Theorem top_rows_are_the_largest (stats : pystr) (v : Idxstats.chromosome_views) :
  Idxstats.chromosome_frames stats = Ok v ->
  exists counts,
    Spec.int_column (Idxstats.all_sorted v) "Mapped" = Ok counts /\
    Spec.descending counts /\
    Spec.int_column (Idxstats.top_df v) "Mapped" = Ok (firstn 5 counts) /\
    forall a b, In a (firstn 5 counts) -> In b (skipn 5 counts) -> a >= b.
Proof.
  intros Hv.
  destruct (FrameFacts.chromosome_frames_ok stats v Hv)
    as (refs & sorted & _ & _ & S & _ & ->).
  cbn [Idxstats.top_df Idxstats.all_sorted].
  assert (D : Spec.descending (map Spec.ref_mapped sorted)).
  { unfold Spec.descending.
    eapply PandasFacts.sorted_map; [|exact S]. intros a b H; exact H. }
  exists (map Spec.ref_mapped sorted). repeat apply conj.
  - apply PandasFacts.int_column_mapped.
  - exact D.
  - rewrite firstn_map. apply PandasFacts.int_column_mapped.
  - apply LineFacts.strongly_sorted_app. rewrite firstn_skipn. exact D.
Qed.

Lemma top_rows_are_the_largest_witness :
  exists v counts,
    Idxstats.chromosome_frames Spec.example_idxstats = Ok v /\
    Spec.int_column (Idxstats.all_sorted v) "Mapped" = Ok counts /\
    counts = [910000; 730000; 500000; 500000; 300; 40; 0] /\
    forall a b, In a (firstn 5 counts) -> In b (skipn 5 counts) -> a >= b.
Proof.
  destruct (Idxstats.chromosome_frames Spec.example_idxstats) as [v|e] eqn:E;
    [|vm_compute in E; discriminate E].
  destruct (top_rows_are_the_largest Spec.example_idxstats v E)
    as (counts & C & _ & _ & L).
  exists v, counts. split; [reflexivity|]. split; [exact C|]. split; [|exact L].
  vm_compute in E. injection E as <-. vm_compute in C. injection C as <-.
  reflexivity.
Defined.

(** ** More on the run *)

Module RunFacts.

Import PyStr Observe.

Lemma invocations_app (a b : list App.event) :
  invocations (a ++ b) = invocations a ++ invocations b.
Proof. unfold invocations. apply flat_map_app. Qed.

Lemma statistics_tab_appends (text : pystr) (log : list App.event) :
  exists suffix,
    App.statistics_tab text log = (log ++ suffix, Ok tt) /\
    invocations suffix = [] /\ In (App.Code text) suffix.
Proof.
  unfold App.statistics_tab, App.bindM, App.emit. cbn.
  eexists. split; [rewrite <- !app_assoc; cbn [app]; reflexivity|].
  split; [reflexivity|]. cbn. tauto.
Qed.

Lemma chromosomes_tab_appends (stats : pystr) (log : list App.event) :
  exists suffix,
    fst (App.chromosomes_tab stats log) = log ++ suffix /\
    invocations suffix = [].
Proof.
  unfold App.chromosomes_tab, App.bindM, App.emit, App.lift.
  destruct (Idxstats.chr_data stats) as [recs|e]; cbn [fst];
    [|eexists; split; reflexivity].
  destruct (Idxstats.with_coverage _) as [d|e]; cbn [fst];
    [|eexists; split; reflexivity].
  destruct (Pandas.nlargest d 5 "Mapped") as [t|e]; cbn [fst];
    [|eexists; split; reflexivity].
  destruct (Pandas.sort_values_desc d "Mapped") as [s|e]; cbn [fst];
    (eexists; split; [rewrite <- !app_assoc; cbn [app]; reflexivity | reflexivity]).
Qed.

Lemma visualizations_tab_appends (text : pystr) (log : list App.event) :
  exists suffix,
    fst (App.visualizations_tab text log) = log ++ suffix /\
    invocations suffix = [].
Proof.
  unfold App.visualizations_tab, App.pie_subtab, App.bindM, App.emit, App.lift.
  destruct (Flagstat.flagstat_data text) as [d|e]; cbn [fst];
    [|eexists; split; [rewrite <- !app_assoc; cbn [app]; reflexivity | reflexivity]].
  destruct (Flagstat.pie_data d) as [|row data]; cbn [fst];
    (eexists; split; [rewrite <- !app_assoc; cbn [app]; reflexivity | reflexivity]).
Qed.

Lemma visualizations_tab_outcome (text : pystr) (log : list App.event) :
  snd (App.visualizations_tab text log)
  = (d <- Flagstat.flagstat_data text ;; Ok tt).
Proof.
  unfold App.visualizations_tab, App.pie_subtab, App.bindM, App.emit, App.lift.
  destruct (Flagstat.flagstat_data text) as [d|e]; cbn [snd bind]; [|reflexivity].
  destruct (Flagstat.pie_data d); reflexivity.
Qed.

(** The log at the moment the tabs are opened. *)
Lemma run_after_index (tool : list pystr -> App.outcome) (bam_path : pystr) :
  App.exit_status (tool (App.index_cmd bam_path)) = 0 ->
  App.run tool (Some bam_path)
  = App.bindM
      (App.statistics_tab (App.out_text (tool (App.flagstat_cmd bam_path))))
      (fun _ =>
         App.bindM
           (App.chromosomes_tab (App.out_text (tool (App.idxstats_cmd bam_path))))
           (fun _ =>
              App.visualizations_tab
                (App.out_text (tool (App.flagstat_cmd bam_path)))))
      [ App.PageConfig "BAM File Quality Control" "wide";
        App.Title "🧬 BAMalyzer";
        App.Text "Upload a BAM file to visualize basic quality metrics.";
        App.FileUploader "📤 Upload BAM file";
        App.Info "🔧 Indexing BAM file...";
        App.Run (App.index_cmd bam_path);
        App.Run (App.flagstat_cmd bam_path);
        App.Run (App.idxstats_cmd bam_path);
        App.Tabs ["Statistics"; "Chromosomes"; "Visualizations"]%string ].
Proof.
  intros H. unfold App.run, App.app, App.analyse, App.subprocess_run.
  rewrite H.
  generalize App.statistics_tab, App.chromosomes_tab, App.visualizations_tab.
  intros ts tc tv. cbn. reflexivity.
Qed.

Lemma run_index_failed (tool : list pystr -> App.outcome) (bam_path : pystr) :
  App.exit_status (tool (App.index_cmd bam_path)) <> 0 ->
  App.run tool (Some bam_path)
  = ([ App.PageConfig "BAM File Quality Control" "wide";
       App.Title "🧬 BAMalyzer";
       App.Text "Upload a BAM file to visualize basic quality metrics.";
       App.FileUploader "📤 Upload BAM file";
       App.Info "🔧 Indexing BAM file...";
       App.Run (App.index_cmd bam_path) ],
     Raise (CalledProcessError (App.index_cmd bam_path)
                               (App.exit_status (tool (App.index_cmd bam_path)))
                               None None)).
Proof.
  intros H. apply Z.eqb_neq in H.
  unfold App.run, App.app, App.analyse, App.subprocess_run, App.bindM, App.emit.
  cbn. rewrite H. reflexivity.
Qed.

End RunFacts.

(** X11.  Of the two report commands only the standard output counts:
    their exit status and what they write on the error stream change
    nothing.  Two behaviours of the tool that build the index and print
    the same two reports give the same run. *)
Theorem report_status_is_ignored
        (tool1 tool2 : list pystr -> App.outcome) (bam_path : pystr) :
  App.exit_status (tool1 (App.index_cmd bam_path)) = 0 ->
  App.exit_status (tool2 (App.index_cmd bam_path)) = 0 ->
  App.out_text (tool1 (App.flagstat_cmd bam_path))
  = App.out_text (tool2 (App.flagstat_cmd bam_path)) ->
  App.out_text (tool1 (App.idxstats_cmd bam_path))
  = App.out_text (tool2 (App.idxstats_cmd bam_path)) ->
  App.run tool1 (Some bam_path) = App.run tool2 (Some bam_path).
Proof.
  intros H1 H2 Hf Hi.
  rewrite (RunFacts.run_after_index tool1 bam_path H1).
  rewrite (RunFacts.run_after_index tool2 bam_path H2).
  rewrite Hf, Hi. reflexivity.
Qed.

Lemma report_status_is_ignored_witness :
  App.run Observe.quiet_reports_tool (Some (str "upload.bam"))
  = App.run Observe.noisy_reports_tool (Some (str "upload.bam")).
Proof.
  apply (report_status_is_ignored
           Observe.quiet_reports_tool Observe.noisy_reports_tool (str "upload.bam"));
    vm_compute; reflexivity.
Defined.

(** X12.  Once the index is built, a run ends as the parsing of its two
    reports ends: with the exception of the per-reference report and
    its frames if there is one, else with the exception of the summary
    report if there is one, else normally.  The Statistics tab is
    rendered in all these cases: the raw summary text is in the log. *)
Theorem run_outcome (tool : list pystr -> App.outcome) (bam_path : pystr) :
  App.exit_status (tool (App.index_cmd bam_path)) = 0 ->
  snd (App.run tool (Some bam_path))
  = (frames <- Idxstats.chromosome_frames
                 (App.out_text (tool (App.idxstats_cmd bam_path))) ;;
     summary <- Flagstat.flagstat_data
                  (App.out_text (tool (App.flagstat_cmd bam_path))) ;;
     Ok tt)
  /\ In (App.Code (App.out_text (tool (App.flagstat_cmd bam_path))))
        (fst (App.run tool (Some bam_path))).
Proof.
  intros H. rewrite (RunFacts.run_after_index tool bam_path H).
  set (fs := App.out_text (tool (App.flagstat_cmd bam_path))).
  set (idx := App.out_text (tool (App.idxstats_cmd bam_path))).
  match goal with |- context [App.bindM _ _ ?l] => set (log0 := l) end.
  unfold App.bindM.
  destruct (RunFacts.statistics_tab_appends fs log0) as (suf1 & -> & _ & Hcode).
  pose proof (chromosomes_tab_outcome idx (log0 ++ suf1)) as Hout.
  destruct (RunFacts.chromosomes_tab_appends idx (log0 ++ suf1)) as (suf2 & Hlog & _).
  destruct (App.chromosomes_tab idx (log0 ++ suf1)) as [log2 [u|e]];
    cbn [fst snd] in *; subst log2.
  - destruct (Idxstats.chromosome_frames idx) as [v|e]; [|discriminate Hout].
    cbn [bind]. split; [apply RunFacts.visualizations_tab_outcome|].
    destruct (RunFacts.visualizations_tab_appends fs ((log0 ++ suf1) ++ suf2))
      as (suf3 & -> & _).
    apply in_or_app; left. apply in_or_app; left. apply in_or_app; right.
    exact Hcode.
  - destruct (Idxstats.chromosome_frames idx) as [v|e']; [discriminate Hout|].
    cbn [bind] in *. split; [exact Hout|].
    apply in_or_app; left. apply in_or_app; right. exact Hcode.
Qed.

Lemma run_outcome_witness :
  snd (App.run Spec.failing_idxstats_tool (Some (str "upload.bam")))
  = Raise (KeyError "Mapped")
  /\ In (App.Code (str "12 + 0 mapped (100.00% : N/A)"))
        (fst (App.run Spec.failing_idxstats_tool (Some (str "upload.bam")))).
Proof.
  apply (run_outcome Spec.failing_idxstats_tool (str "upload.bam")).
  vm_compute. reflexivity.
Defined.

(** X13.  The external tool is started at most three times and in one
    order: never without an upload; for an upload first to build the
    index and, only if that ended with status zero, for the summary
    report and then for the per-reference report.  No tab starts it
    again. *)
Theorem tool_invocations (tool : list pystr -> App.outcome)
        (uploaded_file : option pystr) :
  Observe.invocations (fst (App.run tool uploaded_file))
  = match uploaded_file with
    | None => []
    | Some bam_path =>
        if App.exit_status (tool (App.index_cmd bam_path)) =? 0
        then [ App.index_cmd bam_path; App.flagstat_cmd bam_path;
               App.idxstats_cmd bam_path ]
        else [ App.index_cmd bam_path ]
    end.
Proof.
  destruct uploaded_file as [bam_path|]; [|reflexivity].
  destruct (App.exit_status (tool (App.index_cmd bam_path)) =? 0) eqn:E.
  - apply Z.eqb_eq in E. rewrite (RunFacts.run_after_index tool bam_path E).
    set (fs := App.out_text (tool (App.flagstat_cmd bam_path))).
    set (idx := App.out_text (tool (App.idxstats_cmd bam_path))).
    match goal with |- context [App.bindM _ _ ?l] => set (log0 := l) end.
    unfold App.bindM.
    destruct (RunFacts.statistics_tab_appends fs log0) as (suf1 & -> & N1 & _).
    destruct (RunFacts.chromosomes_tab_appends idx (log0 ++ suf1))
      as (suf2 & Hlog & N2).
    destruct (App.chromosomes_tab idx (log0 ++ suf1)) as [log2 [u|e]];
      cbn [fst snd] in *; subst log2.
    + destruct (RunFacts.visualizations_tab_appends fs ((log0 ++ suf1) ++ suf2))
        as (suf3 & -> & N3).
      rewrite !RunFacts.invocations_app, N1, N2, N3. reflexivity.
    + rewrite !RunFacts.invocations_app, N1, N2. reflexivity.
  - apply Z.eqb_neq in E. rewrite (RunFacts.run_index_failed tool bam_path E).
    reflexivity.
Qed.

(** ** More on the category mapper *)

Module CategoryFacts.

Import PyStr Flagstat Observe.

Lemma first_label_none (labels : list (pystr * string)) (k : pystr) :
  first_label labels k = None <->
  Forall (fun pat => contains pat k = false) (map fst labels).
Proof.
  induction labels as [|[pat label] labels IH]; cbn [first_label map fst].
  - split; [constructor | reflexivity].
  - destruct (contains pat k) eqn:E.
    + split; [discriminate|]. intros H; inversion H; congruence.
    + rewrite IH. split; [intros H; constructor; assumption|].
      intros H; inversion H; assumption.
Qed.

Lemma pie_fold_nil (items : list (pystr * Z)) (acc : list pie_row) :
  fold_left pie_step items acc = [] <->
  acc = [] /\ Forall (fun kv => first_label labels_map (fst kv) = None) items.
Proof.
  revert acc; induction items as [|kv items IH]; intros acc; cbn [fold_left].
  - split; [intros ->; split; [reflexivity | constructor] | tauto].
  - rewrite IH. unfold pie_step.
    destruct (first_label labels_map (fst kv)) as [label|] eqn:E.
    + split.
      * intros [H _]. destruct acc; discriminate H.
      * intros [_ H]. inversion H; congruence.
    + split.
      * intros [-> H]. split; [reflexivity | constructor; assumption].
      * intros [-> H]. inversion H; tauto.
Qed.

Lemma pie_fold_length (items : list (pystr * Z)) (acc : list pie_row) :
  (List.length (fold_left pie_step items acc)
   <= List.length acc + List.length items)%nat.
Proof.
  revert acc; induction items as [|kv items IH]; intros acc; cbn [fold_left].
  - cbn. lia.
  - specialize (IH (pie_step acc kv)). unfold pie_step in *.
    destruct (first_label labels_map (fst kv));
      [rewrite length_app in IH|]; cbn [List.length] in *; lia.
Qed.

End CategoryFacts.

(** X14.  The categories the mapper can assign are ten: each of them is
    the category of some description, and no description gets any
    other. *)
Theorem assignable_categories_are_all (label : string) :
  (exists k, Flagstat.first_label Flagstat.labels_map k = Some label)
  <-> In label Observe.assignable_categories.
Proof.
  split.
  - intros [k H]. revert H. unfold Flagstat.labels_map. cbn [Flagstat.first_label].
    repeat match goal with
    | |- (if PyStr.contains ?p ?s then _ else _) = Some _ -> _ =>
        let E := fresh "E" in
        destruct (PyStr.contains p s) eqn:E;
        [ let H := fresh "H" in
          intros H; injection H as <-;
          first [ cbn; tauto
                | exfalso;
                  match goal with
                  | M : PyStr.contains (str "mapped") s = false |- _ =>
                      rewrite (MapperFacts.contains_mapped p s eq_refl M) in E;
                      discriminate E
                  end ]
        | ]
    end.
    discriminate.
  - intros H. cbn in H.
    repeat (destruct H as [<-|H];
            [ first [ exists (str "in total"); vm_compute; reflexivity
                    | exists (str "secondary"); vm_compute; reflexivity
                    | exists (str "supplementary"); vm_compute; reflexivity
                    | exists (str "duplicates"); vm_compute; reflexivity
                    | exists (str "mapped"); vm_compute; reflexivity
                    | exists (str "paired in sequencing"); vm_compute; reflexivity
                    | exists (str "read1"); vm_compute; reflexivity
                    | exists (str "read2"); vm_compute; reflexivity
                    | exists (str "properly paired"); vm_compute; reflexivity
                    | exists (str "singletons"); vm_compute; reflexivity ]
            | ]).
    destruct H.
Qed.

(** X15.  The pie sub-tab shows one thing: the warning when no
    description of the summary holds any pattern of the label table,
    else a chart of at least one row; and the chart never has more rows
    than the summary has entries. *)
Theorem pie_chart_or_warning (flagstat_text : pystr) (d : Dict.t Z)
        (log : list App.event) :
  Flagstat.flagstat_data flagstat_text = Ok d ->
  (Forall (fun k => Forall (fun pat => PyStr.contains pat k = false)
                           Observe.patterns)
          (Dict.keys d) ->
   App.pie_subtab flagstat_text log
   = (log ++ [ App.Warning "Could not generate pie chart." ], Ok tt))
  /\ (Exists (fun k => Exists (fun pat => PyStr.contains pat k = true)
                              Observe.patterns)
             (Dict.keys d) ->
      Flagstat.pie_data d <> [] /\
      App.pie_subtab flagstat_text log
      = (log ++ [ App.PieChart (Flagstat.pie_data d)
                               "📊 Read Composition from Flagstats" ],
         Ok tt))
  /\ (List.length (Flagstat.pie_data d) <= List.length d)%nat.
Proof.
  intros Hd.
  assert (N : Flagstat.pie_data d = [] <->
              Forall (fun k => Forall (fun pat => PyStr.contains pat k = false)
                                      Observe.patterns) (Dict.keys d)).
  { unfold Flagstat.pie_data, Dict.items, Dict.keys.
    rewrite CategoryFacts.pie_fold_nil, Forall_map. split.
    - intros [_ H]. eapply Forall_impl; [|exact H].
      intros kv. apply CategoryFacts.first_label_none.
    - intros H. split; [reflexivity|]. eapply Forall_impl; [|exact H].
      intros kv. apply CategoryFacts.first_label_none. }
  unfold App.pie_subtab, App.bindM, App.lift, App.emit. rewrite Hd.
  repeat apply conj.
  - intros H. apply N in H. rewrite H. reflexivity.
  - intros H.
    assert (Hne : Flagstat.pie_data d <> []).
    { intros E. apply N in E. rewrite Forall_forall in E.
      apply Exists_exists in H. destruct H as [k [Hk Hp]].
      specialize (E k Hk). rewrite Forall_forall in E.
      apply Exists_exists in Hp. destruct Hp as [pat [Hpat Hc]].
      specialize (E pat Hpat). congruence. }
    split; [exact Hne|]. destruct (Flagstat.pie_data d); [contradiction|reflexivity].
  - apply (CategoryFacts.pie_fold_length d []).
Qed.

Lemma pie_chart_or_warning_witness :
  App.pie_subtab (str "3 + 0 primary") []
  = ([] ++ [ App.Warning "Could not generate pie chart." ], Ok tt)
  /\ App.pie_subtab (str "5 + 0 Properly Paired (50.00% : N/A)") []
     = ([] ++ [ App.PieChart [ {| Flagstat.Category := "Properly Paired";
                                  Flagstat.Count := 5 |} ]
                             "📊 Read Composition from Flagstats" ],
        Ok tt).
Proof.
  split.
  - apply (proj1 (pie_chart_or_warning
                    (str "3 + 0 primary") [ (str "0 primary", 3) ] []
                    ltac:(vm_compute; reflexivity))).
    repeat constructor.
  - apply (proj1 (proj2 (pie_chart_or_warning
                    (str "5 + 0 Properly Paired (50.00% : N/A)")
                    [ (str "0 properly paired", 5) ] []
                    ltac:(vm_compute; reflexivity)))).
    constructor. unfold Observe.patterns.
    apply Exists_exists. exists (str "properly paired").
    split; [vm_compute; tauto | vm_compute; reflexivity].
Defined.

(** ** More on the per-reference report *)

Module ReferenceFacts.

Import PyStr Pandas Spec PyStrFacts Idxstats.

(** What one turn of the loop of lines 60-69 does to the list. *)
Lemma chr_step_cases (acc acc' : list record) (line : pystr) :
  chr_step acc line = Ok acc' ->
  acc' = acc \/
  exists l m u,
    truthy (strip line) = true /\
    (3 <= List.length (split TAB line))%nat /\
    int (item (split TAB line) 1) = Ok l /\
    int (item (split TAB line) 2) = Ok m /\
    (if (3 <? List.length (split TAB line))%nat
     then int (item (split TAB line) 3) = Ok u else u = 0) /\
    acc' = acc ++ [chr_record (item (split TAB line) 0) l m u].
Proof.
  unfold chr_step.
  destruct (truthy (strip line)); [|intros H; injection H as <-; tauto].
  destruct (3 <=? List.length (split TAB line))%nat eqn:E3;
    [|intros H; injection H as <-; tauto].
  apply Nat.leb_le in E3.
  destruct (int (item (split TAB line) 1)) as [l|] eqn:E1; cbn [bind]; [|discriminate].
  destruct (int (item (split TAB line) 2)) as [m|] eqn:E2; cbn [bind]; [|discriminate].
  destruct (3 <? List.length (split TAB line))%nat eqn:E4.
  - destruct (int (item (split TAB line) 3)) as [u|] eqn:E5; cbn [bind]; [|discriminate].
    intros H; injection H as <-. right. exists l, m, u. tauto.
  - cbn [bind]. intros H; injection H as <-. right. exists l, m, 0. tauto.
Qed.

Lemma int_raise (s : pystr) : raises (int s) -> int s = Raise (ValueError s).
Proof. intros [e H]. rewrite H. f_equal. eapply int_raises_value_error; exact H. Qed.

Lemma minus_not_space (c : ascii) : is_digit c = true -> int_space c = false.
Proof. intros H. apply (digit_not_space c H). Qed.

(** A sign before the digits is taken as written. *)
Lemma int_signed (s : pystr) :
  digits s ->
  int ("-"%char :: s) = Ok (- decimal_value s) /\
  int ("+"%char :: s) = Ok (decimal_value s).
Proof.
  intros H. destruct (digits_ends s H) as [_ [pre [z [Hz Hdz]]]].
  assert (E : forall c, int_space c = false ->
                rev (int_lskip (rev (int_lskip (c :: s)))) = c :: s).
  { intros c Hc. rewrite int_lskip_fixed by exact Hc.
    rewrite Hz. change (c :: pre ++ [z]) with ((c :: pre) ++ [z]).
    rewrite rev_app_distr. cbn [rev app].
    rewrite int_lskip_fixed by (apply minus_not_space; exact Hdz).
    change (z :: rev pre ++ [c]) with ([z] ++ rev (c :: pre)).
    rewrite rev_app_distr, rev_involutive. reflexivity. }
  unfold int. rewrite !E by reflexivity. cbn [int_body].
  rewrite Ascii.eqb_refl.
  replace (Ascii.eqb "+"%char "-"%char) with false by reflexivity.
  rewrite Ascii.eqb_refl.
  rewrite (int_digits_all s (proj2 H) false 0) by (left; exact (proj1 H)).
  split; reflexivity.
Qed.

End ReferenceFacts.

(** X16.  Every row of the parsed table comes from a line of the
    report: a line that is not blank and has three fields or more,
    whose first field, as it stands, is the name, whose second and
    third fields are the length and the mapped count, and whose fourth
    field, or 0 when there are three, is the unmapped count. *)
Theorem reference_row_origin (chromosome_stats : pystr)
        (recs : list Pandas.record) (rec : Pandas.record) :
  Idxstats.chr_data chromosome_stats = Ok recs -> In rec recs ->
  exists line l m u,
    In line (PyStr.splitlines chromosome_stats) /\
    PyStr.truthy (PyStr.strip line) = true /\
    (3 <= List.length (PyStr.split PyStr.TAB line))%nat /\
    PyStr.int (PyStr.item (PyStr.split PyStr.TAB line) 1) = Ok l /\
    PyStr.int (PyStr.item (PyStr.split PyStr.TAB line) 2) = Ok m /\
    (if (3 <? List.length (PyStr.split PyStr.TAB line))%nat
     then PyStr.int (PyStr.item (PyStr.split PyStr.TAB line) 3) = Ok u
     else u = 0) /\
    rec = Spec.chr_record (PyStr.item (PyStr.split PyStr.TAB line) 0) l m u.
Proof.
  intros Hd Hin.
  set (Q := fun rec : Pandas.record =>
              exists line l m u,
                In line (PyStr.splitlines chromosome_stats) /\
                PyStr.truthy (PyStr.strip line) = true /\
                (3 <= List.length (PyStr.split PyStr.TAB line))%nat /\
                PyStr.int (PyStr.item (PyStr.split PyStr.TAB line) 1) = Ok l /\
                PyStr.int (PyStr.item (PyStr.split PyStr.TAB line) 2) = Ok m /\
                (if (3 <? List.length (PyStr.split PyStr.TAB line))%nat
                 then PyStr.int (PyStr.item (PyStr.split PyStr.TAB line) 3) = Ok u
                 else u = 0) /\
                rec = Spec.chr_record (PyStr.item (PyStr.split PyStr.TAB line) 0) l m u).
  assert (F : Forall Q recs).
  { apply (for_each_invariant (fun recs => Forall Q recs) Idxstats.chr_step
                              (PyStr.splitlines chromosome_stats)) with (s := []);
      [| constructor | exact Hd].
    intros s x s' Hx Hs H. apply ReferenceFacts.chr_step_cases in H.
    destruct H as [->|(l & m & u & Ht & H3 & Hl & Hm & Hu & ->)]; [exact Hs|].
    apply Forall_app. split; [exact Hs|]. constructor; [|constructor].
    exists x, l, m, u. tauto. }
  rewrite Forall_forall in F. exact (F rec Hin).
Qed.

Lemma reference_row_origin_witness :
  exists line l m u,
    In line (PyStr.splitlines
               (PyStr.join [PyStr.LF] [ Spec.tsv ["chr1"; "10"; "4"]%string;
                                        Spec.tsv [" chrM "; "16569"; "300"]%string ])) /\
    PyStr.truthy (PyStr.strip line) = true /\
    (3 <= List.length (PyStr.split PyStr.TAB line))%nat /\
    PyStr.int (PyStr.item (PyStr.split PyStr.TAB line) 1) = Ok l /\
    PyStr.int (PyStr.item (PyStr.split PyStr.TAB line) 2) = Ok m /\
    (if (3 <? List.length (PyStr.split PyStr.TAB line))%nat
     then PyStr.int (PyStr.item (PyStr.split PyStr.TAB line) 3) = Ok u
     else u = 0) /\
    Spec.chr_record (str " chrM ") 16569 300 0
    = Spec.chr_record (PyStr.item (PyStr.split PyStr.TAB line) 0) l m u.
Proof.
  apply (reference_row_origin
           (PyStr.join [PyStr.LF] [ Spec.tsv ["chr1"; "10"; "4"]%string;
                                    Spec.tsv [" chrM "; "16569"; "300"]%string ])
           [ Spec.chr_record (str "chr1") 10 4 0;
             Spec.chr_record (str " chrM ") 16569 300 0 ]).
  - vm_compute. reflexivity.
  - right; left; reflexivity.
Defined.

(** X17.  Parsing stops at the first number that does not parse, and
    the exception names it: in a per-reference line the length is
    looked at before the mapped count and that before the unmapped
    count; in a summary line it is the stripped text left of the '+'.
    What comes after in the report has no say. *)
Theorem first_malformed_number_is_reported
        (before after : list pystr) (line : pystr) :
  (forall recs,
      Idxstats.chr_lines before = Ok recs ->
      PyStr.truthy (PyStr.strip line) = true ->
      (3 <= List.length (PyStr.split PyStr.TAB line))%nat ->
      (raises (PyStr.int (PyStr.item (PyStr.split PyStr.TAB line) 1)) ->
       Idxstats.chr_lines (before ++ line :: after)
       = Raise (ValueError (PyStr.item (PyStr.split PyStr.TAB line) 1)))
      /\ (forall l,
            PyStr.int (PyStr.item (PyStr.split PyStr.TAB line) 1) = Ok l ->
            raises (PyStr.int (PyStr.item (PyStr.split PyStr.TAB line) 2)) ->
            Idxstats.chr_lines (before ++ line :: after)
            = Raise (ValueError (PyStr.item (PyStr.split PyStr.TAB line) 2)))
      /\ (forall l m,
            PyStr.int (PyStr.item (PyStr.split PyStr.TAB line) 1) = Ok l ->
            PyStr.int (PyStr.item (PyStr.split PyStr.TAB line) 2) = Ok m ->
            (3 < List.length (PyStr.split PyStr.TAB line))%nat ->
            raises (PyStr.int (PyStr.item (PyStr.split PyStr.TAB line) 3)) ->
            Idxstats.chr_lines (before ++ line :: after)
            = Raise (ValueError (PyStr.item (PyStr.split PyStr.TAB line) 3))))
  /\ (forall d l r,
        Flagstat.flagstat_lines before = Ok d ->
        PyStr.split "+"%char line = [l; r] ->
        raises (PyStr.int (PyStr.strip l)) ->
        Flagstat.flagstat_lines (before ++ line :: after)
        = Raise (ValueError (PyStr.strip l))).
Proof.
  split.
  - intros recs Hb Ht H3.
    assert (G : forall e, Idxstats.chr_step [] line = Raise e ->
                          Idxstats.chr_lines (before ++ line :: after) = Raise e).
    { intros e He. rewrite IdxstatsFacts.chr_lines_app, Hb. cbn [bind].
      unfold Idxstats.chr_lines. cbn [for_each]. rewrite He. reflexivity. }
    apply Nat.leb_le in H3.
    repeat apply conj.
    + intros Hr. apply G. unfold Idxstats.chr_step. rewrite Ht, H3.
      rewrite (ReferenceFacts.int_raise _ Hr). reflexivity.
    + intros l Hl Hr. apply G. unfold Idxstats.chr_step. rewrite Ht, H3, Hl.
      rewrite (ReferenceFacts.int_raise _ Hr). reflexivity.
    + intros l m Hl Hm H4 Hr. apply G. unfold Idxstats.chr_step.
      apply Nat.ltb_lt in H4. rewrite Ht, H3, Hl, Hm, H4.
      rewrite (ReferenceFacts.int_raise _ Hr). reflexivity.
  - intros d l r Hb Hs Hr. unfold Flagstat.flagstat_lines in *.
    rewrite for_each_app, Hb. cbn [bind for_each].
    unfold Flagstat.flagstat_step at 1.
    rewrite (PyStrFacts.truthy_strip line "+"%char);
      [| rewrite (MalformedFacts.split_two _ _ _ _ Hs);
         apply in_or_app; right; left; reflexivity
       | reflexivity].
    rewrite Hs. cbn [List.length Nat.eqb PyStr.item nth].
    rewrite (ReferenceFacts.int_raise _ Hr). reflexivity.
Qed.

Lemma first_malformed_number_is_reported_witness :
  Idxstats.chr_lines
    ([Spec.tsv ["chr1"; "10"; "4"]%string]
     ++ Spec.tsv ["chr2"; "1e6"; "many"; "0"]%string
     :: [Spec.tsv ["chr3"; "x"; "y"]%string])
  = Raise (ValueError (str "1e6"))
  /\ Flagstat.flagstat_lines
       ([str "5 + 0 mapped"] ++ str "n/a + 0 duplicates" :: [str "x + y"])
     = Raise (ValueError (str "n/a")).
Proof.
  split.
  - apply (proj1 (proj1 (first_malformed_number_is_reported
                           [Spec.tsv ["chr1"; "10"; "4"]%string]
                           [Spec.tsv ["chr3"; "x"; "y"]%string]
                           (Spec.tsv ["chr2"; "1e6"; "many"; "0"]%string))
                        [Spec.chr_record (str "chr1") 10 4 0]
                        ltac:(vm_compute; reflexivity)
                        ltac:(vm_compute; reflexivity)
                        ltac:(vm_compute; lia))).
    exists (ValueError (str "1e6")). vm_compute. reflexivity.
  - apply (proj2 (first_malformed_number_is_reported
                    [str "5 + 0 mapped"] [str "x + y"] (str "n/a + 0 duplicates"))
                 [ (str "0 mapped", 5) ] (str "n/a ") (str " 0 duplicates")).
    + vm_compute. reflexivity.
    + vm_compute. reflexivity.
    + exists (ValueError (str "n/a")). vm_compute. reflexivity.
Defined.

(** X18.  The numbers of a per-reference line are taken as written,
    sign included: nothing checks that a length or a count is not
    negative. *)
Theorem signed_fields_are_accepted
        (acc : list Pandas.record) (name len_txt map_txt : pystr) :
  Spec.free_of PyStr.TAB name ->
  Spec.digits len_txt -> Spec.digits map_txt ->
  Idxstats.chr_step
    acc (PyStr.join [PyStr.TAB]
                    [ name; "-"%char :: len_txt; "-"%char :: map_txt ])
  = Ok (acc ++ [ Spec.chr_record name (- Spec.decimal_value len_txt)
                                 (- Spec.decimal_value map_txt) 0 ]).
Proof.
  intros Fn Hl Hm.
  assert (Ft : forall s, Spec.digits s -> Spec.free_of PyStr.TAB ("-"%char :: s)).
  { intros s Hs [E|Hin]; [discriminate E|].
    exact (FlagstatFacts.digits_free PyStr.TAB s eq_refl Hs Hin). }
  assert (Es := LineFacts.split_join
                  PyStr.TAB [ name; "-"%char :: len_txt; "-"%char :: map_txt ]
                  ltac:(discriminate)
                  ltac:(repeat constructor; auto)).
  unfold Idxstats.chr_step.
  rewrite (PyStrFacts.truthy_strip _ "-"%char);
    [| apply (PyStrMore.split_part_incl PyStr.TAB "-"%char _ 1);
       rewrite Es; left; reflexivity
     | reflexivity].
  rewrite Es. cbn [List.length PyStr.item nth Nat.leb Nat.ltb].
  rewrite (proj1 (ReferenceFacts.int_signed len_txt Hl)).
  rewrite (proj1 (ReferenceFacts.int_signed map_txt Hm)).
  reflexivity.
Qed.

Lemma signed_fields_are_accepted_witness :
  Idxstats.chr_step [] (Spec.tsv ["chr1"; "-248956422"; "-5"]%string)
  = Ok ([] ++ [ Spec.chr_record (str "chr1") (-248956422) (-5) 0 ]).
Proof.
  apply (signed_fields_are_accepted [] (str "chr1") (str "248956422") (str "5")).
  - unfold Spec.free_of; cbn; intuition discriminate.
  - split; [discriminate | repeat constructor].
  - split; [discriminate | repeat constructor].
Defined.
